(** * The history normaliser, the response extractor and [chat] of
    [1_foundations/app.py], embedded over a small universe of Python values.

    The source is dynamically typed: a history entry and a provider response
    are inspected by [isinstance], [getattr], [dict.get], truthiness and
    [str()].  The embedding keeps that: one type [pyval] of Python values, the
    builtins the source calls written out over it, and an error monad
    [result] for the statements that can raise. *)

From Stdlib Require Import String Ascii List ZArith Bool Arith Lia DecimalString.
Import ListNotations.
Local Open Scope list_scope.
Local Open Scope string_scope.
Set Warnings "-register-all".

(** ** Exceptions and the error monad *)

(** An exception object: an instance of a class deriving from [Exception]
    (the ones [except Exception] catches), with the text [str(e)] gives. *)
Record exn : Type := Exn { exn_class : string; exn_descr : string }.

Definition TypeError (msg : string) : exn := Exn "TypeError" msg.
Definition AttributeError (msg : string) : exn := Exn "AttributeError" msg.
Definition KeyError (msg : string) : exn := Exn "KeyError" msg.
Definition IndexError (msg : string) : exn := Exn "IndexError" msg.

Definition is_AttributeError (e : exn) : bool := exn_class e =? "AttributeError".

Inductive result (A : Type) : Type :=
| Ok (a : A)
| Raise (e : exn).
Arguments Ok {A} a.
Arguments Raise {A} e.

Definition bind {A B : Type} (m : result A) (k : A -> result B) : result B :=
  match m with
  | Ok a => k a
  | Raise e => Raise e
  end.

(** [try: m except Exception as e: h e] *)
Definition try_except {A : Type} (m : result A) (h : exn -> result A) : result A :=
  match m with
  | Ok a => Ok a
  | Raise e => h e
  end.

Notation "x <- m ;; k" := (bind m (fun x => k))
  (at level 61, m at next level, right associativity).

(** ** Python values *)

(** What an instance of a user or SDK class answers to the object protocol:
    its class name, [str()], [repr()] and [bool()]. *)
Record obj_info : Type := ObjInfo {
  obj_class : string;
  obj_str : string;
  obj_repr : string;
  obj_bool : bool
}.

(** The values of the model.  A dict is an association list in insertion
    order with string keys (the source only asks for string keys, and
    [dict.values()] is read in order).  An object carries its attributes; an
    attribute is a value or a property whose getter raises. *)
Inductive pyval : Type :=
| PNone
| PBool (b : bool)
| PInt (n : Z)
| PStr (s : string)
| PList (items : list pyval)
| PTuple (items : list pyval)
| PDict (entries : list (string * pyval))
| PObj (info : obj_info) (attrs : list (string * (pyval + exn))).

Definition type_name (v : pyval) : string :=
  match v with
  | PNone => "NoneType"
  | PBool _ => "bool"
  | PInt _ => "int"
  | PStr _ => "str"
  | PList _ => "list"
  | PTuple _ => "tuple"
  | PDict _ => "dict"
  | PObj info _ => obj_class info
  end.

(** *** [bool(v)] *)
Definition truthy (v : pyval) : bool :=
  match v with
  | PNone => false
  | PBool b => b
  | PInt n => negb (Z.eqb n 0)
  | PStr s => negb (s =? "")
  | PList l => negb (Nat.eqb (length l) 0)
  | PTuple l => negb (Nat.eqb (length l) 0)
  | PDict d => negb (Nat.eqb (length d) 0)
  | PObj info _ => obj_bool info
  end.

(** [a or b] *)
Definition py_or (a b : pyval) : pyval := if truthy a then a else b.

(** *** [repr()] and [str()] *)

Definition dquote : ascii := ascii_of_nat 34.
Definition squote : ascii := ascii_of_nat 39.
Definition backslash : ascii := ascii_of_nat 92.

Definition char (c : ascii) : string := String c EmptyString.

Definition hex_digit (n : nat) : ascii :=
  nth n (list_ascii_of_string "0123456789abcdef") "0"%char.

Definition hex_escape (n : nat) : string :=
  String backslash (String "x" (String (hex_digit (n / 16)) (char (hex_digit (n mod 16))))).

Fixpoint contains_char (c : ascii) (s : string) : bool :=
  match s with
  | EmptyString => false
  | String a s' => Ascii.eqb a c || contains_char c s'
  end.

(** Characters are the code points below 256.  Above ASCII the printable ones
    are U+00A1 to U+00FF except the soft hyphen U+00AD. *)
Definition printable_high (n : nat) : bool :=
  ((161 <=? n) && negb (n =? 173))%nat.

Definition repr_char (quote c : ascii) : string :=
  let n := nat_of_ascii c in
  if Ascii.eqb c quote || Ascii.eqb c backslash then String backslash (char c)
  else if (n =? 9)%nat then String backslash "t"
  else if (n =? 10)%nat then String backslash "n"
  else if (n =? 13)%nat then String backslash "r"
  else if ((n <? 32) || (n =? 127))%nat then hex_escape n
  else if (n <? 127)%nat then char c
  else if printable_high n then char c
  else hex_escape n.

Fixpoint repr_chars (quote : ascii) (s : string) : string :=
  match s with
  | EmptyString => EmptyString
  | String c s' => repr_char quote c ++ repr_chars quote s'
  end.

(** [repr] of a [str]: single quotes, unless the text has a single quote and
    no double quote. *)
Definition repr_str (s : string) : string :=
  let quote :=
    if contains_char squote s && negb (contains_char dquote s) then dquote else squote in
  String quote (repr_chars quote s ++ char quote).

(** The decimal digits of an int, of any size: the interpreter's limit on
    the digits [str()] converts is in [str_checked] further down. *)
Definition repr_int (n : Z) : string := NilZero.string_of_int (Z.to_int n).

Definition join (sep : string) (l : list string) : string := String.concat sep l.

Fixpoint py_repr (v : pyval) : string :=
  match v with
  | PNone => "None"
  | PBool true => "True"
  | PBool false => "False"
  | PInt n => repr_int n
  | PStr s => repr_str s
  | PList l => "[" ++ join ", " (map py_repr l) ++ "]"
  | PTuple l =>
      match l with
      | [x] => "(" ++ py_repr x ++ ",)"
      | _ => "(" ++ join ", " (map py_repr l) ++ ")"
      end
  | PDict d =>
      "{" ++ join ", " (map (fun kv => repr_str (fst kv) ++ ": " ++ py_repr (snd kv)) d) ++ "}"
  | PObj info _ => obj_repr info
  end.

(** [str(v)]: the text itself for a [str], the object's own for an instance,
    [repr(v)] for the other builtins. *)
Definition py_str (v : pyval) : string :=
  match v with
  | PStr s => s
  | PObj info _ => obj_str info
  | _ => py_repr v
  end.


(** ** The builtins the source calls *)

Fixpoint assoc {A : Type} (k : string) (l : list (string * A)) : option A :=
  match l with
  | [] => None
  | (k', a) :: l' => if k' =? k then Some a else assoc k l'
  end.

(** [key in d] and [d.get(key)] *)
Definition dict_has (d : list (string * pyval)) (key : string) : bool :=
  match assoc key d with Some _ => true | None => false end.

Definition dict_get (d : list (string * pyval)) (key : string) : pyval :=
  match assoc key d with Some v => v | None => PNone end.

(** [list(d.values())] *)
Definition dict_values (d : list (string * pyval)) : list pyval := map snd d.

Definition no_attribute (o : pyval) (name : string) : exn :=
  AttributeError ("'" ++ type_name o ++ "' object has no attribute '" ++ name ++ "'").

(** [o.name], for the attributes the source reads ([candidates], [content],
    [text], [parts], and [strip] off a value that is no [str]): no builtin
    type of the model has one of them. *)
Definition py_getattr (o : pyval) (name : string) : result pyval :=
  match o with
  | PObj _ attrs =>
      match assoc name attrs with
      | Some (inl v) => Ok v
      | Some (inr e) => Raise e
      | None => Raise (no_attribute o name)
      end
  | _ => Raise (no_attribute o name)
  end.

(** [getattr(o, name, default)]: only an [AttributeError] gives the default. *)
Definition getattr (o : pyval) (name : string) (default : pyval) : result pyval :=
  try_except (py_getattr o name)
    (fun e => if is_AttributeError e then Ok default else Raise e).

Definition chars_of (s : string) : list pyval :=
  map (fun c => PStr (char c)) (list_ascii_of_string s).

(** What [for x in v] runs over. *)
Definition py_iter (v : pyval) : result (list pyval) :=
  match v with
  | PList l => Ok l
  | PTuple l => Ok l
  | PStr s => Ok (chars_of s)
  | PDict d => Ok (map (fun kv => PStr (fst kv)) d)
  | _ => Raise (TypeError ("'" ++ type_name v ++ "' object is not iterable"))
  end.

(** [v[i]] for a literal index [i >= 0]. *)
Definition py_getitem (v : pyval) (i : nat) : result pyval :=
  match v with
  | PList l =>
      match nth_error l i with
      | Some x => Ok x
      | None => Raise (IndexError "list index out of range")
      end
  | PTuple l =>
      match nth_error l i with
      | Some x => Ok x
      | None => Raise (IndexError "tuple index out of range")
      end
  | PStr s =>
      match nth_error (chars_of s) i with
      | Some x => Ok x
      | None => Raise (IndexError "string index out of range")
      end
  | PDict _ => Raise (KeyError (repr_int (Z.of_nat i)))
  | _ => Raise (TypeError ("'" ++ type_name v ++ "' object is not subscriptable"))
  end.

(** [assembled += t] with [assembled] a [str]. *)
Definition str_iadd (assembled : string) (t : pyval) : result string :=
  match t with
  | PStr s => Ok (assembled ++ s)
  | _ => Raise (TypeError ("can only concatenate str (not " ++ char dquote ++ type_name t
                           ++ char dquote ++ ") to str"))
  end.

(** [v == s] for a [str] literal [s]. *)
Definition eq_str (v : pyval) (s : string) : bool :=
  match v with
  | PStr t => t =? s
  | _ => false
  end.

(** [str.isspace] on a code point below 256. *)
Definition is_space (c : ascii) : bool :=
  let n := nat_of_ascii c in
  (((9 <=? n) && (n <=? 13)) || ((28 <=? n) && (n <=? 32)) || (n =? 133) || (n =? 160))%nat.

Fixpoint lstrip (s : string) : string :=
  match s with
  | EmptyString => EmptyString
  | String c s' => if is_space c then lstrip s' else s
  end.

Fixpoint rstrip (s : string) : string :=
  match s with
  | EmptyString => EmptyString
  | String c s' =>
      let r := rstrip s' in
      if is_space c && (r =? "") then EmptyString else String c r
  end.

Definition strip (s : string) : string := rstrip (lstrip s).

(** [v.strip()]: the [str] method, or what the lookup and the call raise on
    another value (no value of the model is callable). *)
Definition py_strip (v : pyval) : result string :=
  match v with
  | PStr s => Ok (strip s)
  | _ =>
      m <- py_getattr v "strip" ;;
      Raise (TypeError ("'" ++ type_name m ++ "' object is not callable"))
  end.

(** ** [extract_text_from_response] *)

(** [t] of one part, lines 117 to 120; [or] evaluates its right side only
    when the left one is falsy. *)
Definition part_text (p : pyval) : result pyval :=
  match p with
  | PDict d => Ok (py_or (dict_get d "text") (py_or (dict_get d "content") (PStr "")))
  | _ =>
      t1 <- getattr p "text" PNone ;;
      if truthy t1 then Ok t1
      else t2 <- getattr p "content" PNone ;; Ok (py_or t2 (PStr ""))
  end.

(** The loop of lines 116 to 122, from the current [assembled]. *)
Fixpoint assemble (assembled : string) (parts : list pyval) : result string :=
  match parts with
  | [] => Ok assembled
  | p :: rest =>
      t <- part_text p ;;
      assembled' <- (if truthy t then str_iadd assembled t else Ok assembled) ;;
      assemble assembled' rest
  end.

(** The body of the [try], lines 101 to 127. *)
Definition extract_body (response_obj : pyval) : result pyval :=
  candidates <- getattr response_obj "candidates" PNone ;;
  if negb (truthy candidates) then Ok (PStr (py_str response_obj))
  else
    candidates <- py_getattr response_obj "candidates" ;;
    cand <- py_getitem candidates 0 ;;
    content0 <- getattr cand "content" PNone ;;
    let content := py_or content0 cand in
    text <- getattr content "text" PNone ;;
    if truthy text then Ok text
    else
      parts <- getattr content "parts" PNone ;;
      if truthy parts then
        ps <- py_iter parts ;;
        assembled <- assemble "" ps ;;
        if truthy (PStr assembled) then Ok (PStr assembled)
        else Ok (PStr (py_str cand))
      else Ok (PStr (py_str cand)).

Definition extract_diagnostic (e : exn) : string :=
  "[Could not extract text from response: " ++ exn_descr e ++ "]".

Definition extract_text_from_response (response_obj : pyval) : result pyval :=
  try_except (extract_body response_obj)
    (fun e => Ok (PStr (extract_diagnostic e))).

(** ** [normalize_history] *)

(** [(user_msg, model_msg)], a tuple of two [str]. *)
Definition turn : Type := (string * string)%type.

(** ["" if x is None else str(x)] *)
Definition none_or_str (x : pyval) : string :=
  match x with
  | PNone => ""
  | _ => py_str x
  end.

(** [item[i]] under a guard [len(item) > i]; out of range is not reached. *)
Definition item_at (l : list pyval) (i : nat) : pyval := nth i l PNone.

(** Lines 151 to 155 and 176 to 180: the first two elements of a list. *)
Definition first_two (l : list pyval) : turn :=
  if (2 <=? length l)%nat then (none_or_str (item_at l 0), none_or_str (item_at l 1))
  else if (length l =? 1)%nat then (none_or_str (item_at l 0), "")
  else ("", "").

(** The body of the loop, lines 146 to 184: the tuple appended for [item].
    None of its statements raises on a value of the model: the indexings are
    under their length tests, and [in], [get], [==] and [str()] are total. *)
Definition normalize_item (item : pyval) : turn :=
  match item with
  | PList l => first_two l
  | PTuple l => first_two l
  | PDict d =>
      if dict_has d "user" && dict_has d "assistant" then
        (none_or_str (dict_get d "user"), none_or_str (dict_get d "assistant"))
      else if dict_has d "sender" && dict_has d "message" then
        if eq_str (dict_get d "sender") "user"
        then (none_or_str (dict_get d "message"), "")
        else ("", none_or_str (dict_get d "message"))
      else if dict_has d "role" && dict_has d "content" then
        if eq_str (dict_get d "role") "user"
        then (none_or_str (dict_get d "content"), "")
        else if eq_str (dict_get d "role") "assistant" || eq_str (dict_get d "role") "model"
        then ("", none_or_str (dict_get d "content"))
        else ("", "")
      else first_two (dict_values d)
  | _ => (py_str item, "")
  end.

(** The loop: [normalized.append(...)] once per item, in order. *)
Definition normalize_loop (items : list pyval) : list turn :=
  fold_left (fun normalized item => (normalized ++ [normalize_item item])%list) items [].

Definition normalize_history (raw_history : pyval) : result (list turn) :=
  items <- py_iter (py_or raw_history (PList [])) ;;
  Ok (normalize_loop items).

(** A list of turns as the Python value [normalize_history] returns. *)
Definition py_turn (t : turn) : pyval := PTuple [PStr (fst t); PStr (snd t)].
Definition py_turns (ts : list turn) : pyval := PList (map py_turn ts).

(** ** [chat] *)

(** [{"role": role, "parts": [{"text": text}]}] *)
Definition message_dict (role : string) (text : pyval) : pyval :=
  PDict [("role", PStr role); ("parts", PList [PDict [("text", text)]])].

(** Lines 200 to 204: what one turn appends to [full_history]. *)
Definition append_turn (full_history : list pyval) (t : turn) : list pyval :=
  let (user_msg, model_msg) := t in
  let full_history :=
    if truthy (PStr user_msg)
    then (full_history ++ [message_dict "user" (PStr user_msg)])%list else full_history in
  if truthy (PStr model_msg)
  then (full_history ++ [message_dict "model" (PStr model_msg)])%list else full_history.

Section Chat.

(** The module's global [system_prompt], and the provider call
    [genai.GenerativeModel(name).generate_content(contents)]. *)
Variable system_prompt : string.
Variable generate_content : string -> pyval -> result pyval.

(** Lines 197 to 207: [full_history] as handed to the provider. *)
Definition build_full_history (message history : pyval) : result (list pyval) :=
  let full_history := [message_dict "user" (PStr system_prompt)] in
  turns <- normalize_history history ;;
  let full_history := fold_left append_turn turns full_history in
  Ok (full_history ++ [message_dict "user" message])%list.

(** Lines 213 to 217, the body of the [try]. *)
Definition chat_try (full_history : list pyval) : result pyval :=
  response <- generate_content "gemini-1.5-flash" (PList full_history) ;;
  answer <- extract_text_from_response response ;;
  blank <- (if negb (truthy answer) then Ok true
            else stripped <- py_strip answer ;; Ok (stripped =? "")) ;;
  if (blank : bool) then Ok (PStr ("(no text extracted) " ++ py_str response))
  else Ok answer.

(** Line 220, the [except Exception as e] clause. *)
Definition chat_except (e : exn) : result pyval :=
  Ok (PStr ("An error occurred: " ++ exn_descr e)).

Definition chat (message history : pyval) : result pyval :=
  full_history <- build_full_history message history ;;
  try_except (chat_try full_history) chat_except.

End Chat.

(** ** The specification's dispatch rules for one history entry

    [turn_by_rules] follows the wording of the priority list, first matching
    rule first: it is compared with [normalize_item] below. *)

Definition as_sequence (v : pyval) : option (list pyval) :=
  match v with
  | PList l => Some l
  | PTuple l => Some l
  | _ => None
  end.

Definition as_mapping (v : pyval) : option (list (string * pyval)) :=
  match v with
  | PDict d => Some d
  | _ => None
  end.

(** The values under two keys, when the mapping has both. *)
Definition both_keys (d : list (string * pyval)) (k1 k2 : string) : option (pyval * pyval) :=
  match assoc k1 d, assoc k2 d with
  | Some v1, Some v2 => Some (v1, v2)
  | _, _ => None
  end.

(** Stringified, a null giving the empty string. *)
Definition text_of (v : pyval) : string :=
  match v with
  | PNone => ""
  | _ => py_str v
  end.

Definition mapping_turn (d : list (string * pyval)) : turn :=
  match both_keys d "user" "assistant" with
  | Some (user, assistant) => (text_of user, text_of assistant)
  | None =>
  match both_keys d "sender" "message" with
  | Some (sender, message) =>
      if eq_str sender "user" then (text_of message, "") else ("", text_of message)
  | None =>
  match both_keys d "role" "content" with
  | Some (role, content) =>
      if eq_str role "user" then (text_of content, "")
      else if eq_str role "assistant" || eq_str role "model" then ("", text_of content)
      else ("", "")
  | None =>
  match map snd d with
  | first :: second :: _ => (text_of first, text_of second)
  | [first] => (text_of first, "")
  | [] => ("", "")
  end end end end.

Definition turn_by_rules (item : pyval) : turn :=
  match as_sequence item with
  | Some (first :: second :: _) => (text_of first, text_of second)
  | Some [first] => (text_of first, "")
  | _ =>
  match as_mapping item with
  | Some d => mapping_turn d
  | None => (py_str item, "")
  end end.

(** The dispatch as the code has it: [turn_by_rules] but for the sequence of
    length 0, whose [isinstance] branch assigns nothing. *)
Definition turn_by_rules_amended (item : pyval) : turn :=
  match as_sequence item with
  | Some [] => ("", "")
  | _ => turn_by_rules item
  end.

(** The dispatch claim as the specification has it: every entry gets the turn of the first rule of
    the priority list that matches it. *)
Definition dispatch_as_stated : Prop :=
  forall item : pyval, normalize_item item = turn_by_rules item.

(** ** The specification's request and reply, to compare with [chat] *)

(** The messages one turn stands for: a user message iff its user text is
    not empty, then an assistant message (the role the provider calls
    [model]) iff its assistant text is not empty. *)
Definition turn_messages (t : turn) : list pyval :=
  ((if fst t =? "" then [] else [message_dict "user" (PStr (fst t))])
   ++ (if snd t =? "" then [] else [message_dict "model" (PStr (snd t))]))%list.

(** System message, history messages in order, new message. *)
Definition request_of (system_prompt : string) (turns : list turn) (message : pyval)
  : list pyval :=
  (message_dict "user" (PStr system_prompt)
   :: flat_map turn_messages turns ++ [message_dict "user" message])%list.

(** The end-to-end scenario as the specification has it, its third message
    under the role [assistant]. *)
Definition scenario_as_stated : Prop :=
  build_full_history "P" (PStr "Bye") (PList [PTuple [PStr "Hi"; PStr "Hello!"]])
  = Ok [message_dict "user" (PStr "P"); message_dict "user" (PStr "Hi");
        message_dict "assistant" (PStr "Hello!"); message_dict "user" (PStr "Bye")].

(** [needle] occurs in [hay]. *)
Definition embeds (needle hay : string) : Prop :=
  exists pre post, hay = pre ++ needle ++ post.

(** The empty-reply claim as the specification has it: the diagnostic embeds
    the extracted text and the raw response. *)
Definition empty_reply_as_stated : Prop :=
  forall (system_prompt : string) (generate_content : string -> pyval -> result pyval)
         (message history : pyval) (full_history : list pyval)
         (response : pyval) (answer : string),
    build_full_history system_prompt message history = Ok full_history ->
    generate_content "gemini-1.5-flash" (PList full_history) = Ok response ->
    extract_text_from_response response = Ok (PStr answer) ->
    strip answer = "" ->
    exists out, chat system_prompt generate_content message history = Ok (PStr out)
                /\ embeds answer out /\ embeds (py_str response) out.

(** An instance of class [cls] that prints as [<cls>]. *)
Definition instance (cls : string) (attrs : list (string * (pyval + exn))) : pyval :=
  PObj (ObjInfo cls ("<" ++ cls ++ ">") ("<" ++ cls ++ ">") true) attrs.

(** A response whose first candidate holds [text] as its flat text. *)
Definition flat_response (text : pyval) : pyval :=
  instance "Response"
    [("candidates", inl (PList [instance "Candidate"
        [("content", inl (instance "Content" [("text", inl text)]))]]))].

(** A response whose first candidate holds [parts]. *)
Definition parts_response (parts : pyval) : pyval :=
  instance "Response"
    [("candidates", inl (PList [instance "Candidate"
        [("content", inl (instance "Content" [("parts", inl parts)]))]]))].

Definition newline : string := char (ascii_of_nat 10).

(** ** The ordered fallback as the extractor takes it

    The five steps with the tests the code makes: a field counts when its
    value is truthy, and the first candidate and the parts are what indexing
    and iterating give.  [fallback_as_stated] further down has the steps as
    the specification words them. *)

(** The field [name] of a part, a mapping or an object; null when absent. *)
Definition part_field (p : pyval) (name : string) : result pyval :=
  match p with
  | PDict d => Ok (dict_get d name)
  | _ => getattr p name PNone
  end.

(** The text of one part: its [text] field when not empty, else its
    [content] field when not empty, else the empty string. *)
Inductive part_contributes (p : pyval) : string -> Prop :=
| contributes_text (s : string) :
    part_field p "text" = Ok (PStr s) -> s <> "" ->
    part_contributes p s
| contributes_content (t : pyval) (s : string) :
    part_field p "text" = Ok t -> truthy t = false ->
    part_field p "content" = Ok (PStr s) -> s <> "" ->
    part_contributes p s
| contributes_nothing (t c : pyval) :
    part_field p "text" = Ok t -> truthy t = false ->
    part_field p "content" = Ok c -> truthy c = false ->
    part_contributes p "".

(** Step 2: the first candidate of a truthy [candidates], and its content
    view: the nested [content] when it is truthy, else the candidate itself
    (a [content] that is there but null, empty or falsy counts as absent). *)
Inductive candidate_view (r : pyval) : pyval -> pyval -> Prop :=
| view_of (candidates cand content : pyval) :
    getattr r "candidates" PNone = Ok candidates -> truthy candidates = true ->
    py_getitem candidates 0 = Ok cand ->
    getattr cand "content" PNone = Ok content ->
    candidate_view r cand (py_or content cand).

(** The text of the parts a content view exposes, when it exposes some. *)
Inductive parts_text (view : pyval) : string -> Prop :=
| parts_text_of (parts : pyval) (ps : list pyval) (texts : list string) :
    getattr view "parts" PNone = Ok parts -> truthy parts = true ->
    py_iter parts = Ok ps ->
    Forall2 part_contributes ps texts ->
    parts_text view (String.concat "" texts).

Definition no_parts (view : pyval) : Prop :=
  exists parts, getattr view "parts" PNone = Ok parts /\ truthy parts = false.

(** Steps 1 to 5, one constructor per way out.  No constructor applies when
    inspecting the response raises: a truthy [candidates] that cannot be
    indexed, truthy [parts] that cannot be iterated, a truthy part text that
    is no [str], a getter that raises. *)
Inductive extracted (r : pyval) : pyval -> Prop :=
| extracted_whole (candidates : pyval) :
    getattr r "candidates" PNone = Ok candidates -> truthy candidates = false ->
    extracted r (PStr (py_str r))
| extracted_flat (cand view text : pyval) :
    candidate_view r cand view ->
    getattr view "text" PNone = Ok text -> truthy text = true ->
    extracted r text
| extracted_parts (cand view text : pyval) (assembled : string) :
    candidate_view r cand view ->
    getattr view "text" PNone = Ok text -> truthy text = false ->
    parts_text view assembled -> assembled <> "" ->
    extracted r (PStr assembled)
| extracted_candidate (cand view text : pyval) :
    candidate_view r cand view ->
    getattr view "text" PNone = Ok text -> truthy text = false ->
    no_parts view \/ parts_text view "" ->
    extracted r (PStr (py_str cand)).

(** The flat text field the first candidate exposes, when not empty, is text. *)
Definition flat_text_is_text (r : pyval) : Prop :=
  forall cand view text,
    candidate_view r cand view ->
    getattr view "text" PNone = Ok text -> truthy text = true ->
    exists s, text = PStr s.

(** Lines 108 to 127 of the extractor, from the first candidate and its
    content view on. *)
Definition extract_from (cand content : pyval) : result pyval :=
  text <- getattr content "text" PNone ;;
  if truthy text then Ok text
  else
    parts <- getattr content "parts" PNone ;;
    if truthy parts then
      ps <- py_iter parts ;;
      assembled <- assemble "" ps ;;
      if truthy (PStr assembled) then Ok (PStr assembled)
      else Ok (PStr (py_str cand))
    else Ok (PStr (py_str cand)).

(** A response whose [candidates] is a property that raises [e]. *)
Definition faulty_response (e : exn) : pyval :=
  instance "Response" [("candidates", inr e)].

(** ** [push], [record_user_details], [record_unknown_question]

    These print and call the network.  What they do to the outside is a
    trace of events, threaded through a state monad over the error monad. *)

Inductive event : Type :=
| Printed (line : string)
| Posted (url : string) (data : pyval) (timeout : Z).

Definition io (A : Type) : Type := list event -> result A * list event.

Definition io_ret {A : Type} (a : A) : io A := fun w => (Ok a, w).

Definition io_bind {A B : Type} (m : io A) (k : A -> io B) : io B :=
  fun w =>
    match m w with
    | (Ok a, w') => k a w'
    | (Raise e, w') => (Raise e, w')
    end.

(** [try: m except Exception as e: h e], the events of [m] staying done. *)
Definition io_try {A : Type} (m : io A) (h : exn -> io A) : io A :=
  fun w =>
    match m w with
    | (Ok a, w') => (Ok a, w')
    | (Raise e, w') => h e w'
    end.

Notation "x <~ m ;; k" := (io_bind m (fun x => k))
  (at level 61, m at next level, right associativity).

(** [print(line)] *)
Definition print (line : string) : io unit :=
  fun w => (Ok tt, (w ++ [Printed line])%list).

(** [a and b] *)
Definition py_and (a b : pyval) : pyval := if truthy a then b else a.

Definition pushover_url : string := "https://api.pushover.net/1/messages.json".

(** The dash of the notice of line 41, U+2014, as the bytes of its UTF-8
    form in the source file. *)
Definition em_dash : string :=
  String (ascii_of_nat 226) (String (ascii_of_nat 128) (char (ascii_of_nat 148))).

Definition skip_notice : string :=
  "Pushover credentials missing " ++ em_dash ++ " skipping HTTP push.".

Section Pushover.

(** The globals [pushover_user] and [pushover_token] ([os.getenv]: a [str] or
    [None]), and [requests.post(url, data=..., timeout=...)]. *)
Variable pushover_user pushover_token : pyval.
Variable requests_post : string -> pyval -> Z -> result pyval.

Definition post (url : string) (data : pyval) (timeout : Z) : io pyval :=
  fun w => (requests_post url data timeout, (w ++ [Posted url data timeout])%list).

(** Lines 37 to 47. *)
Definition push (message : pyval) : io pyval :=
  _ <~ print ("Push: " ++ py_str message) ;;
  if negb (truthy (py_and pushover_user pushover_token)) then
    _ <~ print skip_notice ;;
    io_ret PNone
  else
    let payload :=
      PDict [("user", pushover_user); ("token", pushover_token); ("message", message)] in
    _ <~ io_try (_ <~ post pushover_url payload 5 ;; io_ret tt)
                (fun e => print ("Pushover request failed: " ++ exn_descr e)) ;;
    io_ret PNone.

(** Lines 50 to 53; an argument left out takes its default. *)
Definition record_user_details (email : pyval) (name notes : option pyval) : io pyval :=
  let name := match name with Some v => v | None => PStr "Name not provided" end in
  let notes := match notes with Some v => v | None => PStr "not provided" end in
  _ <~ push (PStr ("Recording interest from " ++ py_str name ++ " with email "
                   ++ py_str email ++ " and notes " ++ py_str notes)) ;;
  io_ret (PDict [("recorded", PStr "ok")]).

(** Lines 56 to 59. *)
Definition record_unknown_question (question : pyval) : io pyval :=
  _ <~ push (PStr ("Recording unknown question: " ++ py_str question)) ;;
  io_ret (PDict [("recorded", PStr "ok")]).

End Pushover.

(** The network calls of a trace. *)
Definition posts_of (w : list event) : list event :=
  filter (fun ev => match ev with Posted _ _ _ => true | Printed _ => false end) w.

(** ** A history in the messages format of line 225

    [gr.ChatInterface(chat, type="messages")] hands [chat] a list of dicts
    with the keys [role] and [content] (and others that are none of [user],
    [assistant], [sender], [message] in pairs). *)
Definition is_message (item : pyval) (role content : pyval) : Prop :=
  exists d, item = PDict d
            /\ dict_has d "user" && dict_has d "assistant" = false
            /\ dict_has d "sender" && dict_has d "message" = false
            /\ assoc "role" d = Some role
            /\ assoc "content" d = Some content.

(** What one such message becomes in the request. *)
Definition wire_message (role content : pyval) : list pyval :=
  if text_of content =? "" then []
  else if eq_str role "user" then [message_dict "user" (PStr (text_of content))]
  else if eq_str role "assistant" || eq_str role "model"
       then [message_dict "model" (PStr (text_of content))]
  else [].

(** A part of a response as the SDK gives it: an instance holding [text]. *)
Definition text_part (s : string) : pyval :=
  instance "Part" [("text", inl (PStr s))].

(** The values of the model that are no instance of a class. *)
Definition is_builtin (v : pyval) : bool :=
  match v with
  | PObj _ _ => false
  | _ => true
  end.

(** The values [for] can run over. *)
Definition is_iterable (v : pyval) : bool :=
  match v with
  | PList _ | PTuple _ | PStr _ | PDict _ => true
  | _ => false
  end.

Definition is_str (v : pyval) : bool :=
  match v with
  | PStr _ => true
  | _ => false
  end.

(** ** The ordered fallback as the specification words it

    [fallback_as_stated] reads the five steps literally: a field is present
    when the object exposes it, whatever its value; a candidate sequence and
    a sequence of parts are a list or a tuple; a part gives the text it
    holds.  It is compared with the extractor below. *)

(** The attribute [name] an object exposes. *)
Definition exposes (o : pyval) (name : string) : option pyval :=
  match o with
  | PObj _ attrs =>
      match assoc name attrs with
      | Some (inl v) => Some v
      | _ => None
      end
  | _ => None
  end.

(** The field [name] of a part, a mapping or an object. *)
Definition part_exposes (p : pyval) (name : string) : option pyval :=
  match p with
  | PDict d => assoc name d
  | _ => exposes p name
  end.

Definition nonempty_text (v : option pyval) : option string :=
  match v with
  | Some (PStr s) => if s =? "" then None else Some s
  | _ => None
  end.

(** Step 4, one part: its [text] preferred, else its [content], else the
    empty string. *)
Definition part_text_as_stated (p : pyval) : string :=
  match nonempty_text (part_exposes p "text") with
  | Some s => s
  | None =>
      match nonempty_text (part_exposes p "content") with
      | Some s => s
      | None => ""
      end
  end.

(** The candidate sequence of a response, and the sequence of parts of a
    content view. *)
Definition sequence_under (o : pyval) (name : string) : option (list pyval) :=
  match exposes o name with
  | Some v => as_sequence v
  | None => None
  end.

Definition fallback_as_stated (r : pyval) : pyval :=
  match sequence_under r "candidates" with
  | Some (cand :: _) =>
      let view :=
        match exposes cand "content" with
        | Some content => content
        | None => cand
        end in
      let last_resort := PStr (py_str cand) in
      let from_parts :=
        match sequence_under view "parts" with
        | Some ps =>
            let assembled := String.concat "" (map part_text_as_stated ps) in
            if assembled =? "" then last_resort else PStr assembled
        | None => last_resort
        end in
      match exposes view "text" with
      | Some text => if truthy text then text else from_parts
      | None => from_parts
      end
  | _ => PStr (py_str r)
  end.

(** *** Where the two fallbacks meet

    A response is well shaped when its getters do not raise (or raise
    [AttributeError], which reads as absent), [candidates] and [parts] are
    a list, a tuple or falsy, a nested [content] that is there is truthy,
    and the [text] and [content] of a part are a [str] or falsy. *)

Definition quiet (o : pyval) (name : string) : bool :=
  match o with
  | PObj _ attrs =>
      match assoc name attrs with
      | Some (inr e) => is_AttributeError e
      | _ => true
      end
  | _ => true
  end.

Definition value_of (v : option pyval) : pyval :=
  match v with
  | Some x => x
  | None => PNone
  end.

Definition seq_or_falsy (v : pyval) : bool :=
  match as_sequence v with
  | Some _ => true
  | None => negb (truthy v)
  end.

Definition text_or_falsy (v : pyval) : bool := is_str v || negb (truthy v).

Definition well_shaped_part (p : pyval) : bool :=
  match p with
  | PDict _ => true
  | _ => quiet p "text" && quiet p "content"
  end
  && text_or_falsy (value_of (part_exposes p "text"))
  && text_or_falsy (value_of (part_exposes p "content")).

Definition well_shaped_view (view : pyval) : bool :=
  quiet view "text" && quiet view "parts"
  && seq_or_falsy (value_of (exposes view "parts"))
  && match sequence_under view "parts" with
     | Some ps => forallb well_shaped_part ps
     | None => true
     end.

Definition well_shaped (r : pyval) : bool :=
  quiet r "candidates"
  && seq_or_falsy (value_of (exposes r "candidates"))
  && match sequence_under r "candidates" with
     | Some (cand :: _) =>
         quiet cand "content"
         && match exposes cand "content" with
            | Some content => truthy content && well_shaped_view content
            | None => well_shaped_view cand
            end
     | _ => true
     end.

(** The fallback claim as the specification has it. *)
Definition fallback_claim_as_stated : Prop :=
  forall r : pyval, extract_text_from_response r = Ok (fallback_as_stated r).

(** A candidate whose nested [content] is there, holds [hello] and is falsy
    (an empty message of the SDK), beside a text of its own. *)
Definition hollow_response : pyval :=
  instance "Response"
    [("candidates",
      inl (PList
             [instance "Candidate"
                [("content",
                  inl (PObj (ObjInfo "Content" "<Content>" "<Content>" false)
                         [("text", inl (PStr "hello"))]));
                 ("text", inl (PStr "own"))]]))].

(** The extractor's contract as the specification has it: a string for every
    response, and every fault raised inside surfaced in it. *)
Definition contract_as_stated : Prop :=
  (forall r : pyval, exists s, extract_text_from_response r = Ok (PStr s))
  /\ (forall info attrs e,
         assoc "candidates" attrs = Some (inr e) ->
         exists s, extract_text_from_response (PObj info attrs) = Ok (PStr s)
                   /\ embeds (exn_descr e) s).

(** ** [str()] under the interpreter's digit limit

    CPython 3.11 and later refuse to convert an int of more than 4300
    digits to text ([sys.int_max_str_digits]): [str()] of such an int, or of
    a list, tuple or dict that holds one, raises [ValueError].  The
    normaliser calls [str()] on what the caller hands it, so this is where an
    entry can make it fail; [normalize_history_checked] is the normaliser
    with this [str()]. *)












(* ================================================================== *)
(** * Theorems *)

(** [str()] on nested builtins, as Python prints them. *)
Example py_str_examples :
  py_str (PList [PStr "a"; PInt (-12); PNone; PTuple [PBool true]]) = "['a', -12, None, (True,)]"
  /\ py_str (PDict [("k", PStr "it's")]) = "{'k': " ++ String dquote ("it's" ++ char dquote) ++ "}"
  /\ py_str (PInt 0) = "0".
Proof. repeat split; reflexivity. Qed.

(** ** Facts about [normalize_history] *)

Lemma normalize_loop_from (items : list pyval) (acc : list turn) :
  fold_left (fun normalized item => (normalized ++ [normalize_item item])%list) items acc
  = (acc ++ map normalize_item items)%list.
Proof.
  revert acc; induction items as [|item items IH]; intros acc; simpl.
  - now rewrite app_nil_r.
  - rewrite IH, <- app_assoc. reflexivity.
Qed.

Lemma normalize_loop_map (items : list pyval) :
  normalize_loop items = map normalize_item items.
Proof. unfold normalize_loop. now rewrite normalize_loop_from. Qed.

Lemma text_of_none_or_str (v : pyval) : none_or_str v = text_of v.
Proof. reflexivity. Qed.

Lemma first_two_cases (l : list pyval) :
  first_two l =
  match l with
  | first :: second :: _ => (text_of first, text_of second)
  | [first] => (text_of first, "")
  | [] => ("", "")
  end.
Proof. destruct l as [|a [|b l]]; reflexivity. Qed.

Lemma dict_has_assoc (d : list (string * pyval)) (k : string) :
  dict_has d k = match assoc k d with Some _ => true | None => false end.
Proof. reflexivity. Qed.

Lemma normalize_item_mapping (d : list (string * pyval)) :
  normalize_item (PDict d) = mapping_turn d.
Proof.
  unfold normalize_item, mapping_turn, both_keys, dict_has, dict_get, dict_values.
  rewrite first_two_cases.
  destruct (assoc "user" d), (assoc "assistant" d), (assoc "sender" d),
    (assoc "message" d), (assoc "role" d), (assoc "content" d); reflexivity.
Qed.

Lemma normalize_history_list (items : list pyval) :
  normalize_history (PList items) = Ok (map normalize_item items).
Proof.
  unfold normalize_history, py_or. destruct items; simpl; [reflexivity|].
  now rewrite normalize_loop_map.
Qed.

Lemma normalize_history_tuple (items : list pyval) :
  normalize_history (PTuple items) = Ok (map normalize_item items).
Proof.
  unfold normalize_history, py_or. destruct items; simpl; [reflexivity|].
  now rewrite normalize_loop_map.
Qed.

(** ** The normaliser under the digit limit *)














(** C6 fails on the empty list: it is a sequence, so line 150 takes it and
    neither length test fires, and its turn is empty; the last rule of the
    list would stringify it into the user text. *)
Lemma dispatch_as_stated_fails :
  normalize_item (PList []) = ("", "")
  /\ turn_by_rules (PList []) = ("[]", "")
  /\ ~ dispatch_as_stated.
Proof.
  repeat split. intros H. specialize (H (PList [])). vm_compute in H. discriminate H.
Qed.

(** C6, amended: every entry gets the turn of the first matching rule of the
    priority list, where a sequence of length 0 gives the empty turn and the
    last rule takes the values that are neither a sequence nor a mapping. *)
Theorem normalize_item_dispatch (item : pyval) :
  normalize_item item = turn_by_rules_amended item.
Proof.
  destruct item as [| b | n | s | l | l | d | info attrs]; try reflexivity.
  - unfold turn_by_rules_amended, turn_by_rules; simpl. rewrite first_two_cases.
    destruct l as [|a [|b l]]; reflexivity.
  - unfold turn_by_rules_amended, turn_by_rules; simpl. rewrite first_two_cases.
    destruct l as [|a [|b l]]; reflexivity.
  - apply normalize_item_mapping.
Qed.

Lemma normalize_item_py_turn (t : turn) : normalize_item (py_turn t) = t.
Proof. destruct t as [u m]. reflexivity. Qed.

Lemma normalize_history_py_turns (ts : list turn) :
  normalize_history (py_turns ts) = Ok ts.
Proof.
  unfold py_turns. rewrite normalize_history_list.
  f_equal. rewrite map_map. rewrite <- (map_id ts) at 2.
  apply map_ext. apply normalize_item_py_turn.
Qed.

(** C9: normalising what [normalize_history] returned gives it back, whatever
    the history (a history that cannot be iterated raises both times); and a
    list of pairs of texts is its own normal form. *)
Theorem normalize_history_idempotent :
  (forall h : pyval,
      (ts <- normalize_history h ;; normalize_history (py_turns ts)) = normalize_history h)
  /\ (forall ts : list turn, normalize_history (py_turns ts) = Ok ts).
Proof.
  split.
  - intros h. destruct (normalize_history h) as [ts|e]; simpl; [|reflexivity].
    apply normalize_history_py_turns.
  - apply normalize_history_py_turns.
Qed.

(** ** Facts about the request [chat] builds *)

Lemma append_turn_messages (full_history : list pyval) (t : turn) :
  append_turn full_history t = (full_history ++ turn_messages t)%list.
Proof.
  destruct t as [u m]. unfold append_turn, turn_messages; simpl.
  destruct (u =? ""), (m =? ""); simpl;
    rewrite ?app_nil_r, <- ?app_assoc; reflexivity.
Qed.

Lemma fold_append_turn (turns : list turn) (full_history : list pyval) :
  fold_left append_turn turns full_history
  = (full_history ++ flat_map turn_messages turns)%list.
Proof.
  revert full_history. induction turns as [|t turns IH]; intros full_history; simpl.
  - now rewrite app_nil_r.
  - rewrite IH, append_turn_messages, <- app_assoc. reflexivity.
Qed.

Lemma build_full_history_request (system_prompt : string) (message history : pyval) :
  build_full_history system_prompt message history
  = (turns <- normalize_history history ;; Ok (request_of system_prompt turns message)).
Proof.
  unfold build_full_history, request_of.
  destruct (normalize_history history) as [turns|e]; simpl; [|reflexivity].
  now rewrite fold_append_turn.
Qed.

(** C1: the list [chat] builds and hands to the provider is the system
    prompt as a user message, then for each normalised turn in order a user
    message iff its user text is not empty and an assistant message iff its
    assistant text is not empty, then the new message as a user message,
    empty or not; an empty or absent history gives the two messages alone. *)
Theorem chat_builds_request (system_prompt : string) (message history : pyval) :
  build_full_history system_prompt message history
  = (turns <- normalize_history history ;; Ok (request_of system_prompt turns message))
  /\ (forall generate_content,
         chat system_prompt generate_content message history
         = (turns <- normalize_history history ;;
            try_except
              (chat_try generate_content (request_of system_prompt turns message))
              chat_except))
  /\ build_full_history system_prompt message (PList [])
     = Ok [message_dict "user" (PStr system_prompt); message_dict "user" message]
  /\ build_full_history system_prompt message PNone
     = Ok [message_dict "user" (PStr system_prompt); message_dict "user" message].
Proof.
  repeat split; try reflexivity.
  - apply build_full_history_request.
  - intros generate_content. unfold chat. rewrite build_full_history_request.
    destruct (normalize_history history); reflexivity.
Qed.

(** C7 fails as stated: the message of the assistant's text goes out under
    the role [model], the provider's name for it, and not [assistant]. *)
Lemma scenario_as_stated_fails :
  build_full_history "P" (PStr "Bye") (PList [PTuple [PStr "Hi"; PStr "Hello!"]])
  = Ok [message_dict "user" (PStr "P"); message_dict "user" (PStr "Hi");
        message_dict "model" (PStr "Hello!"); message_dict "user" (PStr "Bye")]
  /\ ~ scenario_as_stated.
Proof.
  split; [reflexivity|].
  unfold scenario_as_stated. vm_compute. intros H. discriminate H.
Qed.

Lemma turn_messages_roles (t : turn) :
  Forall (fun m => exists role text,
              m = message_dict role text /\ (role = "user" \/ role = "model"))
         (turn_messages t).
Proof.
  unfold turn_messages. apply Forall_app. split.
  - destruct (fst t =? ""); constructor; [|constructor].
    exists "user", (PStr (fst t)). auto.
  - destruct (snd t =? ""); constructor; [|constructor].
    exists "model", (PStr (snd t)). auto.
Qed.

(** C7, amended: every message of the built request has the role [user] or
    [model] (the system prompt and the user's texts under [user], the
    assistant's texts under [model]), the first one being the system prompt
    under [user]; the scenario builds user P, user Hi, model Hello!, user Bye. *)
Theorem request_roles :
  build_full_history "P" (PStr "Bye") (PList [PTuple [PStr "Hi"; PStr "Hello!"]])
  = Ok [message_dict "user" (PStr "P"); message_dict "user" (PStr "Hi");
        message_dict "model" (PStr "Hello!"); message_dict "user" (PStr "Bye")]
  /\ forall (system_prompt : string) (message history : pyval) (full_history : list pyval),
       build_full_history system_prompt message history = Ok full_history ->
       hd_error full_history = Some (message_dict "user" (PStr system_prompt))
       /\ Forall (fun m => exists role text,
                      m = message_dict role text /\ (role = "user" \/ role = "model"))
                 full_history.
Proof.
  split; [reflexivity|].
  intros system_prompt message history full_history.
  rewrite build_full_history_request.
  destruct (normalize_history history) as [turns|e]; simpl; [|discriminate].
  intros H; injection H as <-. split; [reflexivity|].
  unfold request_of. constructor; [eauto|].
  apply Forall_app. split.
  - apply Forall_flat_map. apply Forall_forall. intros t _. apply turn_messages_roles.
  - constructor; [eauto|constructor].
Qed.

Lemma request_roles_witness :
  hd_error [message_dict "user" (PStr "S"); message_dict "user" (PStr "hi")]
  = Some (message_dict "user" (PStr "S"))
  /\ Forall (fun m => exists role text,
                 m = message_dict role text /\ (role = "user" \/ role = "model"))
            [message_dict "user" (PStr "S"); message_dict "user" (PStr "hi")].
Proof. apply (proj2 request_roles "S" (PStr "hi") PNone). reflexivity. Defined.

(** ** Facts about [chat] around the provider call *)

(** C3: when the provider call raises [e], [chat] does not raise: it returns
    the text [An error occurred: ] followed by the description of [e]. *)
Theorem chat_provider_fault
    (system_prompt : string) (generate_content : string -> pyval -> result pyval)
    (message history : pyval) (full_history : list pyval) (e : exn) :
  build_full_history system_prompt message history = Ok full_history ->
  generate_content "gemini-1.5-flash" (PList full_history) = Raise e ->
  chat system_prompt generate_content message history
  = Ok (PStr ("An error occurred: " ++ exn_descr e))
  /\ prefix "An error occurred:" ("An error occurred: " ++ exn_descr e) = true.
Proof.
  intros Hbuild Hcall. split.
  - unfold chat. rewrite Hbuild. simpl. unfold chat_try. rewrite Hcall. reflexivity.
  - simpl. reflexivity.
Qed.

Lemma chat_provider_fault_witness :
  chat "S" (fun _ _ => Raise (Exn "ResourceExhausted" "429 quota exceeded"))
       (PStr "hello") (PList [PTuple [PStr "Hi"; PStr "Hello!"]])
  = Ok (PStr "An error occurred: 429 quota exceeded")
  /\ prefix "An error occurred:" "An error occurred: 429 quota exceeded" = true.
Proof.
  exact (chat_provider_fault "S"
           (fun _ _ => Raise (Exn "ResourceExhausted" "429 quota exceeded"))
           (PStr "hello") (PList [PTuple [PStr "Hi"; PStr "Hello!"]])
           (request_of "S" [("Hi", "Hello!")] (PStr "hello"))
           (Exn "ResourceExhausted" "429 quota exceeded") eq_refl eq_refl).
Defined.

Lemma append_empty_r (s : string) : s ++ "" = s.
Proof. induction s as [|c s IH]; simpl; [reflexivity|now rewrite IH]. Qed.

Lemma embeds_char (c : ascii) (hay : string) :
  embeds (char c) hay -> contains_char c hay = true.
Proof.
  intros (pre & post & ->). induction pre as [|a pre IH]; simpl in *.
  - now rewrite Ascii.eqb_refl.
  - rewrite IH. apply orb_true_r.
Qed.

(** C8 fails as stated: the provider answers with a candidate whose text is
    one newline; the reply is the raw response behind a fixed label, and the
    newline is nowhere in it. *)
Lemma empty_reply_as_stated_fails :
  extract_text_from_response (flat_response (PStr newline)) = Ok (PStr newline)
  /\ strip newline = ""
  /\ chat "S" (fun _ _ => Ok (flat_response (PStr newline))) (PStr "hello") PNone
     = Ok (PStr "(no text extracted) <Response>")
  /\ ~ embeds newline "(no text extracted) <Response>"
  /\ ~ empty_reply_as_stated.
Proof.
  assert (Hno : ~ embeds newline "(no text extracted) <Response>").
  { intros H. apply embeds_char in H. vm_compute in H. discriminate H. }
  repeat split; try reflexivity; [exact Hno|].
  intros H.
  destruct (H "S" (fun _ _ => Ok (flat_response (PStr newline))) (PStr "hello") PNone
              _ (flat_response (PStr newline)) newline
              eq_refl eq_refl eq_refl eq_refl)
    as (out & Hout & Hanswer & _).
  vm_compute in Hout. injection Hout as <-. exact (Hno Hanswer).
Qed.

(** C8, amended: when the provider call succeeds and the extracted text is
    empty or only whitespace, [chat] returns the fixed label
    [(no text extracted)], a space and the raw response as text, and nothing
    more: the response is embedded, the extracted text is not written out. *)
Theorem chat_empty_reply
    (system_prompt : string) (generate_content : string -> pyval -> result pyval)
    (message history : pyval) (full_history : list pyval)
    (response : pyval) (answer : string) :
  build_full_history system_prompt message history = Ok full_history ->
  generate_content "gemini-1.5-flash" (PList full_history) = Ok response ->
  extract_text_from_response response = Ok (PStr answer) ->
  strip answer = "" ->
  chat system_prompt generate_content message history
  = Ok (PStr ("(no text extracted) " ++ py_str response))
  /\ embeds (py_str response) ("(no text extracted) " ++ py_str response).
Proof.
  intros Hbuild Hcall Hextract Hblank. split.
  - unfold chat. rewrite Hbuild. simpl. unfold chat_try.
    rewrite Hcall. simpl. rewrite Hextract. simpl.
    destruct (answer =? "") eqn:Hempty; simpl.
    + reflexivity.
    + rewrite Hblank. reflexivity.
  - exists "(no text extracted) ", "". now rewrite append_empty_r.
Qed.

Lemma chat_empty_reply_witness :
  chat "S" (fun _ _ => Ok (flat_response (PStr newline))) (PStr "hello") PNone
  = Ok (PStr "(no text extracted) <Response>")
  /\ embeds "<Response>" "(no text extracted) <Response>".
Proof.
  exact (chat_empty_reply "S" (fun _ _ => Ok (flat_response (PStr newline)))
           (PStr "hello") PNone (request_of "S" [] (PStr "hello"))
           (flat_response (PStr newline)) newline
           eq_refl eq_refl eq_refl eq_refl).
Defined.

(** ** Facts about [extract_text_from_response] *)

Lemma append_assoc_str (a b c : string) : (a ++ b) ++ c = a ++ b ++ c.
Proof. induction a as [|x a IH]; simpl; [reflexivity|now rewrite IH]. Qed.

Lemma concat_empty_cons (s : string) (l : list string) :
  String.concat "" (s :: l) = s ++ String.concat "" l.
Proof. destruct l; simpl; [now rewrite append_empty_r|reflexivity]. Qed.

Lemma truthy_str (s : string) : truthy (PStr s) = true <-> s <> "".
Proof.
  simpl. destruct (String.eqb_spec s ""); simpl; split; congruence.
Qed.

Lemma truthy_str_false (s : string) : truthy (PStr s) = false <-> s = "".
Proof.
  simpl. destruct (String.eqb_spec s ""); simpl; split; congruence.
Qed.

Lemma str_iadd_inv (assembled a : string) (t : pyval) :
  str_iadd assembled t = Ok a -> exists s, t = PStr s /\ a = assembled ++ s.
Proof.
  destruct t; simpl; try discriminate. intros H; injection H as <-. eauto.
Qed.

(** The two fields of a part as [part_text] reads them: [content] is read
    only when [text] is falsy. *)
Lemma part_text_fields (p : pyval) :
  part_text p =
  (t1 <- part_field p "text" ;;
   if truthy t1 then Ok t1
   else t2 <- part_field p "content" ;; Ok (py_or t2 (PStr ""))).
Proof.
  destruct p; try reflexivity.
  simpl. unfold py_or at 1. destruct (truthy (dict_get entries "text")); reflexivity.
Qed.

(** One turn of the loop adds what the part contributes. *)
Lemma part_step_sound (p : pyval) (assembled a : string) :
  (t <- part_text p ;; if truthy t then str_iadd assembled t else Ok assembled) = Ok a ->
  exists s, part_contributes p s /\ a = assembled ++ s.
Proof.
  rewrite part_text_fields.
  destruct (part_field p "text") as [t1|e] eqn:H1; simpl; [|discriminate].
  destruct (truthy t1) eqn:T1; simpl.
  - rewrite T1. intros H. apply str_iadd_inv in H as (s & -> & ->).
    exists s. split; [|reflexivity].
    apply contributes_text; [assumption|now apply truthy_str].
  - destruct (part_field p "content") as [t2|e] eqn:H2; simpl; [|discriminate].
    unfold py_or. destruct (truthy t2) eqn:T2.
    + rewrite T2. intros H. apply str_iadd_inv in H as (s & -> & ->).
      exists s. split; [|reflexivity].
      eapply contributes_content; eauto. now apply truthy_str.
    + simpl. intros H; injection H as <-.
      exists "". split; [|now rewrite append_empty_r].
      eapply contributes_nothing; eauto.
Qed.

Lemma part_step_complete (p : pyval) (assembled s : string) :
  part_contributes p s ->
  (t <- part_text p ;; if truthy t then str_iadd assembled t else Ok assembled)
  = Ok (assembled ++ s).
Proof.
  rewrite part_text_fields.
  intros [s' H1 Hs | t s' H1 T1 H2 Hs | t c H1 T1 H2 T2]; rewrite H1; simpl.
  - apply truthy_str in Hs. simpl in Hs. rewrite Hs. simpl. rewrite Hs. reflexivity.
  - rewrite T1, H2. simpl. unfold py_or.
    apply truthy_str in Hs. rewrite Hs, Hs. reflexivity.
  - rewrite T1, H2. simpl. unfold py_or. rewrite T2. simpl.
    now rewrite append_empty_r.
Qed.

Lemma assemble_step (p : pyval) (rest : list pyval) (assembled : string) :
  assemble assembled (p :: rest) =
  (a <- (t <- part_text p ;; if truthy t then str_iadd assembled t else Ok assembled) ;;
   assemble a rest).
Proof. simpl. destruct (part_text p); reflexivity. Qed.

Lemma assemble_sound (ps : list pyval) :
  forall assembled a, assemble assembled ps = Ok a ->
  exists texts, Forall2 part_contributes ps texts
                /\ a = assembled ++ String.concat "" texts.
Proof.
  induction ps as [|p ps IH]; intros assembled a.
  - simpl. intros H; injection H as <-. exists []. split; [constructor|].
    simpl. now rewrite append_empty_r.
  - rewrite assemble_step.
    destruct (t <- part_text p ;; if truthy t then str_iadd assembled t else Ok assembled)
      as [a'|e] eqn:Hstep; simpl; [|discriminate].
    intros Hrest. apply part_step_sound in Hstep as (s & Hs & ->).
    apply IH in Hrest as (texts & Htexts & ->).
    exists (s :: texts). split; [now constructor|].
    now rewrite concat_empty_cons, append_assoc_str.
Qed.

Lemma assemble_complete (ps : list pyval) (texts : list string) :
  Forall2 part_contributes ps texts ->
  forall assembled, assemble assembled ps = Ok (assembled ++ String.concat "" texts).
Proof.
  induction 1 as [|p s ps texts Hs _ IH]; intros assembled.
  - simpl. now rewrite append_empty_r.
  - rewrite assemble_step, (part_step_complete p assembled s Hs). cbn [bind].
    now rewrite IH, concat_empty_cons, append_assoc_str.
Qed.

(** A truthy result of [getattr(o, name, None)] is the attribute itself,
    so the plain access of line 104 gives it again. *)
Lemma getattr_truthy (o v : pyval) (name : string) :
  getattr o name PNone = Ok v -> truthy v = true -> py_getattr o name = Ok v.
Proof.
  unfold getattr. destruct (py_getattr o name) as [a|e]; simpl.
  - intros H _. exact H.
  - destruct (is_AttributeError e); [|discriminate].
    intros H; injection H as <-. discriminate.
Qed.

Lemma extract_body_view (r candidates cand content : pyval) :
  getattr r "candidates" PNone = Ok candidates -> truthy candidates = true ->
  py_getitem candidates 0 = Ok cand ->
  getattr cand "content" PNone = Ok content ->
  extract_body r = extract_from cand (py_or content cand).
Proof.
  intros Hc Tc Hi Hk. unfold extract_body.
  rewrite Hc. cbn [bind]. rewrite Tc. cbn [negb].
  rewrite (getattr_truthy _ _ _ Hc Tc). cbn [bind].
  rewrite Hi. cbn [bind]. rewrite Hk. reflexivity.
Qed.

Lemma extract_from_sound (r cand view v : pyval) :
  candidate_view r cand view -> extract_from cand view = Ok v -> extracted r v.
Proof.
  intros Hview. unfold extract_from.
  destruct (getattr view "text" PNone) as [text|e] eqn:Htext; cbn [bind]; [|discriminate].
  destruct (truthy text) eqn:Ttext.
  { intros H; injection H as <-. eapply extracted_flat; eauto. }
  destruct (getattr view "parts" PNone) as [parts|e] eqn:Hparts; cbn [bind]; [|discriminate].
  destruct (truthy parts) eqn:Tparts.
  2:{ intros H; injection H as <-. eapply extracted_candidate; eauto.
      left. exists parts. auto. }
  destruct (py_iter parts) as [ps|e] eqn:Hiter; cbn [bind]; [|discriminate].
  destruct (assemble "" ps) as [assembled|e] eqn:Hasm; cbn [bind]; [|discriminate].
  apply assemble_sound in Hasm as (texts & Htexts & Heq). simpl in Heq. subst assembled.
  assert (Hp : parts_text view (String.concat "" texts)) by (econstructor; eauto).
  destruct (truthy (PStr (String.concat "" texts))) eqn:Tasm;
    intros H; injection H as <-.
  - eapply extracted_parts; eauto. now apply truthy_str.
  - apply truthy_str_false in Tasm. rewrite Tasm in Hp.
    eapply extracted_candidate; eauto.
Qed.

Lemma extract_body_sound (r v : pyval) :
  extract_body r = Ok v -> extracted r v.
Proof.
  destruct (getattr r "candidates" PNone) as [candidates|e] eqn:Hc.
  2:{ unfold extract_body. rewrite Hc. discriminate. }
  destruct (truthy candidates) eqn:Tc.
  2:{ unfold extract_body. rewrite Hc. cbn [bind]. rewrite Tc. cbn [negb].
      intros H; injection H as <-. eapply extracted_whole; eauto. }
  destruct (py_getitem candidates 0) as [cand|e] eqn:Hi.
  2:{ unfold extract_body. rewrite Hc. cbn [bind]. rewrite Tc. cbn [negb].
      rewrite (getattr_truthy _ _ _ Hc Tc). cbn [bind]. rewrite Hi. discriminate. }
  destruct (getattr cand "content" PNone) as [content|e] eqn:Hk.
  2:{ unfold extract_body. rewrite Hc. cbn [bind]. rewrite Tc. cbn [negb].
      rewrite (getattr_truthy _ _ _ Hc Tc). cbn [bind]. rewrite Hi. cbn [bind].
      rewrite Hk. discriminate. }
  rewrite (extract_body_view _ _ _ _ Hc Tc Hi Hk).
  apply extract_from_sound. econstructor; eauto.
Qed.

Lemma parts_text_assemble (view : pyval) (assembled : string) :
  parts_text view assembled ->
  exists parts ps, getattr view "parts" PNone = Ok parts /\ truthy parts = true
                   /\ py_iter parts = Ok ps /\ assemble "" ps = Ok assembled.
Proof.
  intros [parts ps texts Hparts Tparts Hiter Htexts].
  exists parts, ps. repeat split; try assumption.
  now rewrite (assemble_complete _ _ Htexts).
Qed.

Lemma extract_body_complete (r v : pyval) :
  extracted r v -> extract_body r = Ok v.
Proof.
  intros [candidates Hc Tc
         | cand view text Hview Htext Ttext
         | cand view text assembled Hview Htext Ttext Hparts Hne
         | cand view text Hview Htext Ttext Hparts].
  - unfold extract_body. rewrite Hc. cbn [bind]. now rewrite Tc.
  - destruct Hview as [candidates cand content Hc Tc Hi Hk].
    rewrite (extract_body_view _ _ _ _ Hc Tc Hi Hk). unfold extract_from.
    rewrite Htext. cbn [bind]. now rewrite Ttext.
  - destruct Hview as [candidates cand content Hc Tc Hi Hk].
    rewrite (extract_body_view _ _ _ _ Hc Tc Hi Hk). unfold extract_from.
    rewrite Htext. cbn [bind]. rewrite Ttext.
    apply parts_text_assemble in Hparts as (parts & ps & Hp & Tp & Hiter & Hasm).
    rewrite Hp. cbn [bind]. rewrite Tp, Hiter. cbn [bind]. rewrite Hasm. cbn [bind].
    apply truthy_str in Hne. now rewrite Hne.
  - destruct Hview as [candidates cand content Hc Tc Hi Hk].
    rewrite (extract_body_view _ _ _ _ Hc Tc Hi Hk). unfold extract_from.
    rewrite Htext. cbn [bind]. rewrite Ttext.
    destruct Hparts as [(parts & Hp & Tp) | Hparts].
    + rewrite Hp. cbn [bind]. now rewrite Tp.
    + apply parts_text_assemble in Hparts as (parts & ps & Hp & Tp & Hiter & Hasm).
      rewrite Hp. cbn [bind]. rewrite Tp, Hiter. cbn [bind]. rewrite Hasm. reflexivity.
Qed.

(** *** The two fallbacks on well-shaped responses *)

Lemma getattr_quiet (o : pyval) (name : string) :
  quiet o name = true -> getattr o name PNone = Ok (value_of (exposes o name)).
Proof.
  unfold getattr, py_getattr, quiet, exposes.
  destruct o; try reflexivity.
  destruct (assoc name attrs) as [[v|e]|]; cbn [try_except]; try reflexivity.
  intros ->. reflexivity.
Qed.

Lemma part_field_quiet (p : pyval) (name : string) :
  match p with PDict _ => true | _ => quiet p name end = true ->
  part_field p name = Ok (value_of (part_exposes p name)).
Proof.
  destruct p; try apply getattr_quiet. reflexivity.
Qed.

Lemma text_or_falsy_cases (o : option pyval) :
  text_or_falsy (value_of o) = true ->
  (exists s, value_of o = PStr s /\ s <> "" /\ nonempty_text o = Some s)
  \/ (truthy (value_of o) = false /\ nonempty_text o = None).
Proof.
  unfold text_or_falsy. destruct o as [v|]; cbn [value_of]; [|now right].
  destruct v; cbn [is_str orb nonempty_text]; intros H;
    try (right; split; [now apply negb_true_iff in H|reflexivity]).
  destruct (String.eqb_spec s "") as [->|Hne]; [now right|].
  left. exists s. repeat split; assumption.
Qed.

Lemma part_step_as_stated (p : pyval) (assembled : string) :
  well_shaped_part p = true ->
  (t <- part_text p ;; if truthy t then str_iadd assembled t else Ok assembled)
  = Ok (assembled ++ part_text_as_stated p).
Proof.
  unfold well_shaped_part. intros H.
  apply andb_true_iff in H as [H Hc]. apply andb_true_iff in H as [Hq Ht].
  assert (Hqt : match p with PDict _ => true | _ => quiet p "text" end = true)
    by (destruct p; try reflexivity; now apply andb_true_iff in Hq as [? _]).
  assert (Hqc : match p with PDict _ => true | _ => quiet p "content" end = true)
    by (destruct p; try reflexivity; now apply andb_true_iff in Hq as [_ ?]).
  rewrite part_text_fields, (part_field_quiet _ _ Hqt). cbn [bind].
  unfold part_text_as_stated.
  destruct (text_or_falsy_cases _ Ht) as [(s & -> & Hs & ->) | (T1 & ->)].
  - apply truthy_str in Hs. rewrite Hs. cbn [bind]. now rewrite Hs.
  - rewrite T1, (part_field_quiet _ _ Hqc). cbn [bind]. unfold py_or.
    destruct (text_or_falsy_cases _ Hc) as [(s & -> & Hs & ->) | (T2 & ->)].
    + apply truthy_str in Hs. now rewrite Hs, Hs.
    + rewrite T2. cbn. now rewrite append_empty_r.
Qed.

Lemma assemble_as_stated (ps : list pyval) :
  forallb well_shaped_part ps = true ->
  forall assembled,
    assemble assembled ps
    = Ok (assembled ++ String.concat "" (map part_text_as_stated ps)).
Proof.
  induction ps as [|p ps IH]; intros H assembled.
  - cbn. now rewrite append_empty_r.
  - cbn [forallb] in H. apply andb_true_iff in H as [Hp Hps].
    rewrite assemble_step, (part_step_as_stated _ _ Hp). cbn [bind map].
    now rewrite (IH Hps), concat_empty_cons, append_assoc_str.
Qed.

Lemma seq_or_falsy_iter (v : pyval) :
  seq_or_falsy v = true -> truthy v = true ->
  exists ps, as_sequence v = Some ps /\ py_iter v = Ok ps /\ ps <> [].
Proof.
  unfold seq_or_falsy. destruct v; cbn [as_sequence]; intros H T;
    try (rewrite T in H; discriminate);
    (exists items; repeat split; intros ->; discriminate).
Qed.

Lemma extract_from_as_stated (cand view : pyval) :
  well_shaped_view view = true ->
  extract_from cand view
  = Ok (let last_resort := PStr (py_str cand) in
        let from_parts :=
          match sequence_under view "parts" with
          | Some ps =>
              let assembled := String.concat "" (map part_text_as_stated ps) in
              if assembled =? "" then last_resort else PStr assembled
          | None => last_resort
          end in
        match exposes view "text" with
        | Some text => if truthy text then text else from_parts
        | None => from_parts
        end).
Proof.
  unfold well_shaped_view. intros H.
  apply andb_true_iff in H as [H Hps]. apply andb_true_iff in H as [H Hseq].
  apply andb_true_iff in H as [Hqt Hqp].
  unfold extract_from. rewrite (getattr_quiet _ _ Hqt). cbn [bind]. cbv zeta.
  assert (Hparts :
    (parts <- getattr view "parts" PNone ;;
     if truthy parts then
       ps <- py_iter parts ;;
       assembled <- assemble "" ps ;;
       if truthy (PStr assembled) then Ok (PStr assembled) else Ok (PStr (py_str cand))
     else Ok (PStr (py_str cand)))
    = Ok (match sequence_under view "parts" with
          | Some ps =>
              if String.concat "" (map part_text_as_stated ps) =? ""
              then PStr (py_str cand)
              else PStr (String.concat "" (map part_text_as_stated ps))
          | None => PStr (py_str cand)
          end)).
  { rewrite (getattr_quiet _ _ Hqp). cbn [bind]. unfold sequence_under in *.
    destruct (exposes view "parts") as [parts|]; cbn [value_of] in *; [|reflexivity].
    destruct (truthy parts) eqn:T.
    - destruct (seq_or_falsy_iter _ Hseq T) as (ps & Hs & -> & _).
      rewrite Hs in *. cbn [bind]. rewrite (assemble_as_stated _ Hps). cbn [bind append truthy].
      destruct (String.concat "" (map part_text_as_stated ps) =? ""); reflexivity.
    - destruct parts; cbn [as_sequence]; try reflexivity;
        destruct items; try discriminate; reflexivity. }
  destruct (exposes view "text") as [text|]; cbn [value_of].
  - destruct (truthy text); [reflexivity|exact Hparts].
  - exact Hparts.
Qed.

Lemma extract_as_stated (r : pyval) :
  well_shaped r = true -> extract_text_from_response r = Ok (fallback_as_stated r).
Proof.
  unfold well_shaped. intros H.
  apply andb_true_iff in H as [H Hcand]. apply andb_true_iff in H as [Hq Hseq].
  unfold extract_text_from_response, fallback_as_stated.
  pose proof (getattr_quiet _ _ Hq) as Hget.
  destruct (truthy (value_of (exposes r "candidates"))) eqn:T.
  - destruct (seq_or_falsy_iter _ Hseq T) as (cands & Hs & _ & Hne).
    unfold sequence_under in *.
    destruct (exposes r "candidates") as [candidates|] eqn:Hexp; cbn [value_of] in *;
      [|discriminate].
    rewrite Hs in *. destruct cands as [|cand rest]; [now destruct Hne|].
    apply andb_true_iff in Hcand as [Hqc Hview].
    assert (Hitem : py_getitem candidates 0 = Ok cand)
      by (destruct candidates; try discriminate; injection Hs as ->; reflexivity).
    rewrite (extract_body_view _ _ _ _ Hget T Hitem (getattr_quiet _ _ Hqc)).
    destruct (exposes cand "content") as [content|]; cbn [value_of].
    + apply andb_true_iff in Hview as [Tc Hview]. unfold py_or. rewrite Tc.
      now rewrite (extract_from_as_stated _ _ Hview).
    + unfold py_or. cbn [truthy]. now rewrite (extract_from_as_stated _ _ Hview).
  - unfold extract_body. rewrite Hget. cbn [bind]. rewrite T. cbn [negb try_except].
    unfold sequence_under.
    destruct (exposes r "candidates") as [candidates|]; cbn [value_of] in *; [|reflexivity].
    destruct candidates; cbn [as_sequence]; try reflexivity;
      destruct items; try discriminate; reflexivity.
Qed.

(** The specification's two examples, and a candidate holding its text
    itself, are well shaped. *)
Example well_shaped_examples :
  well_shaped (flat_response (PStr "hello")) = true
  /\ well_shaped
       (parts_response (PList [PDict [("text", PStr "a")]; PDict [("content", PStr "b")]]))
     = true
  /\ well_shaped
       (instance "Response"
          [("candidates", inl (PTuple [instance "Candidate" [("text", inl (PStr "t"))]]))])
     = true.
Proof. repeat split. Qed.

(** C2 fails as stated.  Parts that are there but are no sequence (the int
    5) make the loop of line 116 raise, and the answer is the diagnostic of
    line 130 where step 5 gives the stringified candidate; candidates that
    are no sequence make line 104 raise where step 1 gives the stringified
    response; and a nested
    [content] that is there but falsy is passed over by the [or] of line
    105, so the candidate's own text comes back where step 2 takes the
    content's. *)
Lemma fallback_as_stated_fails :
  extract_text_from_response (parts_response (PInt 5))
  = Ok (PStr "[Could not extract text from response: 'int' object is not iterable]")
  /\ fallback_as_stated (parts_response (PInt 5)) = PStr "<Candidate>"
  /\ extract_text_from_response (instance "Response" [("candidates", inl (PInt 5))])
     = Ok (PStr "[Could not extract text from response: 'int' object is not subscriptable]")
  /\ fallback_as_stated (instance "Response" [("candidates", inl (PInt 5))])
     = PStr "<Response>"
  /\ extract_text_from_response hollow_response = Ok (PStr "own")
  /\ fallback_as_stated hollow_response = PStr "hello"
  /\ ~ fallback_claim_as_stated.
Proof.
  repeat split. intros H. specialize (H hollow_response).
  vm_compute in H. discriminate H.
Qed.

(** C2, amended: the extractor follows the ordered fallback with the tests
    the code makes, unless inspecting the response raises.  Whenever a step
    of [extracted] applies to a response, the extractor returns that step's
    value; one step at most applies (the first match wins); whatever it
    returns without a fault inside is the value of the step that applies;
    and a fault inside (candidates that cannot be indexed, parts that
    cannot be iterated, a part text that is no [str]) gives the diagnostic.
    On every well-shaped response this is the fallback as the
    specification words it.  The flat text [hello] comes back as it is, and
    the parts [text: a], [content: b] give [ab]. *)
Theorem extract_follows_fallback :
  (forall r v : pyval, extracted r v -> extract_text_from_response r = Ok v)
  /\ (forall r v1 v2 : pyval, extracted r v1 -> extracted r v2 -> v1 = v2)
  /\ (forall r : pyval,
         match extract_body r with
         | Ok v => extract_text_from_response r = Ok v /\ extracted r v
         | Raise e => extract_text_from_response r = Ok (PStr (extract_diagnostic e))
         end)
  /\ (forall r : pyval,
         well_shaped r = true ->
         extract_text_from_response r = Ok (fallback_as_stated r))
  /\ extract_text_from_response (flat_response (PStr "hello")) = Ok (PStr "hello")
  /\ extract_text_from_response
       (parts_response (PList [PDict [("text", PStr "a")]; PDict [("content", PStr "b")]]))
     = Ok (PStr "ab").
Proof.
  split; [|split; [|split; [|split; [|split; reflexivity]]]].
  - intros r v H. unfold extract_text_from_response.
    now rewrite (extract_body_complete r v H).
  - intros r v1 v2 H1 H2.
    apply extract_body_complete in H1, H2. congruence.
  - intros r. unfold extract_text_from_response.
    destruct (extract_body r) as [v|e] eqn:Hbody; simpl; [|reflexivity].
    split; [reflexivity|]. now apply extract_body_sound.
  - apply extract_as_stated.
Qed.

Lemma extract_follows_fallback_witness :
  extract_text_from_response (instance "Response" [("candidates", inl (PList []))])
  = Ok (PStr "<Response>").
Proof.
  exact (proj1 extract_follows_fallback
           (instance "Response" [("candidates", inl (PList []))]) (PStr "<Response>")
           (extracted_whole (instance "Response" [("candidates", inl (PList []))])
              (PList []) eq_refl eq_refl)).
Defined.

Lemma length_append_str (a b : string) :
  String.length (a ++ b) = (String.length a + String.length b)%nat.
Proof. induction a as [|c a IH]; cbn [append String.length]; [reflexivity|now rewrite IH]. Qed.

Lemma embeds_length (needle hay : string) :
  embeds needle hay -> (String.length needle <= String.length hay)%nat.
Proof. intros (pre & post & ->). rewrite !length_append_str. lia. Qed.

(** A getter that raises [AttributeError] reads as an absent attribute. *)
Lemma getattr_swallows (info : obj_info) (attrs : list (string * (pyval + exn)))
    (name : string) (e : exn) (default : pyval) :
  assoc name attrs = Some (inr e) -> is_AttributeError e = true ->
  getattr (PObj info attrs) name default = Ok default.
Proof.
  intros Hattr He. unfold getattr, py_getattr. rewrite Hattr. cbn [try_except].
  now rewrite He.
Qed.

(** C4 fails as stated, twice.  A first candidate whose flat text is the
    int 7 gets that int back from line 110, not a string; and an
    [AttributeError] raised by the getter of [candidates] is taken by
    [getattr]'s default at line 101, so the answer is the stringified
    response, without the fault's description. *)
Lemma contract_as_stated_fails :
  extract_text_from_response (flat_response (PInt 7)) = Ok (PInt 7)
  /\ extract_text_from_response (faulty_response (AttributeError "no candidates"))
     = Ok (PStr "<Response>")
  /\ ~ embeds "no candidates" "<Response>"
  /\ ~ contract_as_stated.
Proof.
  repeat split.
  - intros H. apply embeds_length in H. vm_compute in H. lia.
  - intros [H _]. destruct (H (flat_response (PInt 7))) as [s Hs].
    vm_compute in Hs. discriminate Hs.
Qed.

(** C4, amended: the extractor never raises.  For every response it returns
    a value; every fault that escapes the inspection of the response comes
    back as the bracketed diagnostic holding the fault's description; the
    value is a string whenever the flat text field, when not empty, is text
    (line 110 returns it as it is); and an [AttributeError] raised by a
    getter is read by [getattr] as an absent field, not surfaced: raised by
    the getter of [candidates], it gives the stringified response. *)
Theorem extract_never_raises :
  (forall r : pyval, exists v, extract_text_from_response r = Ok v)
  /\ (forall (r : pyval) (e : exn),
         extract_body r = Raise e ->
         extract_text_from_response r
         = Ok (PStr ("[Could not extract text from response: " ++ exn_descr e ++ "]"))
         /\ embeds (exn_descr e) (extract_diagnostic e))
  /\ (forall r : pyval,
         flat_text_is_text r -> exists s, extract_text_from_response r = Ok (PStr s))
  /\ (forall (info : obj_info) (attrs : list (string * (pyval + exn))) (e : exn),
         assoc "candidates" attrs = Some (inr e) -> is_AttributeError e = true ->
         extract_text_from_response (PObj info attrs) = Ok (PStr (obj_str info)))
  /\ (forall (info : obj_info) (attrs : list (string * (pyval + exn)))
             (name : string) (e : exn) (default : pyval),
         assoc name attrs = Some (inr e) -> is_AttributeError e = true ->
         getattr (PObj info attrs) name default = Ok default).
Proof.
  unfold extract_text_from_response. split; [|split; [|split; [|split]]].
  - intros r. destruct (extract_body r); simpl; eauto.
  - intros r e H. rewrite H. split; [reflexivity|].
    exists "[Could not extract text from response: ", "]". reflexivity.
  - intros r Htext. destruct (extract_body r) as [v|e] eqn:Hbody; simpl; [|eauto].
    apply extract_body_sound in Hbody.
    destruct Hbody as [ | cand view text Hview Hget Ttext | | ]; eauto.
    destruct (Htext cand view text Hview Hget Ttext) as (s & ->). eauto.
  - intros info attrs e Hattr He. unfold extract_body.
    now rewrite (getattr_swallows _ _ _ _ _ Hattr He).
  - apply getattr_swallows.
Qed.

Lemma extract_never_raises_witness :
  extract_text_from_response (faulty_response (Exn "ValueError" "response blocked"))
  = Ok (PStr "[Could not extract text from response: response blocked]")
  /\ embeds "response blocked" "[Could not extract text from response: response blocked]".
Proof.
  exact (proj1 (proj2 extract_never_raises)
           (faulty_response (Exn "ValueError" "response blocked"))
           (Exn "ValueError" "response blocked") eq_refl).
Defined.

(** C10: in the loop over the parts, a part whose [text] is there but falsy
    (the empty string, null) contributes its [content]: the fallback is on
    emptiness, not on absence.  The part [text: empty, content: b]
    contributes [b]. *)
Theorem part_text_empty_falls_back :
  (forall p t c : pyval,
      part_field p "text" = Ok t -> truthy t = false ->
      part_field p "content" = Ok c -> truthy c = true ->
      part_text p = Ok c)
  /\ part_text (PDict [("text", PStr ""); ("content", PStr "b")]) = Ok (PStr "b")
  /\ part_text (PDict [("text", PNone); ("content", PStr "b")]) = Ok (PStr "b")
  /\ assemble "" [PDict [("text", PStr ""); ("content", PStr "b")]] = Ok "b"
  /\ extract_text_from_response
       (parts_response (PList [PDict [("text", PStr ""); ("content", PStr "b")]]))
     = Ok (PStr "b").
Proof.
  split; [|repeat split; reflexivity].
  intros p t c H1 T1 H2 T2. rewrite part_text_fields, H1. cbn [bind].
  rewrite T1, H2. cbn [bind]. unfold py_or. now rewrite T2.
Qed.

Lemma part_text_empty_falls_back_witness :
  part_text (instance "Part" [("text", inl (PStr "")); ("content", inl (PStr "b"))])
  = Ok (PStr "b").
Proof.
  exact (proj1 part_text_empty_falls_back
           (instance "Part" [("text", inl (PStr "")); ("content", inl (PStr "b"))])
           (PStr "") (PStr "b") eq_refl eq_refl eq_refl eq_refl).
Defined.

(* ================================================================== *)
(** * Further properties of the code *)

(** ** [chat] as a whole *)

Lemma strip_head_kept (c : ascii) (s : string) :
  is_space c = false -> strip (String c s) <> "".
Proof.
  intros Hc. unfold strip. cbn [lstrip]. rewrite Hc. cbn [rstrip]. rewrite Hc.
  simpl. discriminate.
Qed.

Lemma extract_returns (r : pyval) : exists v, extract_text_from_response r = Ok v.
Proof.
  unfold extract_text_from_response. destruct (extract_body r); simpl; eauto.
Qed.

Lemma py_strip_not_str (v : pyval) :
  is_str v = false -> exists e, py_strip v = Raise e.
Proof.
  destruct v; simpl; try discriminate; intros _; eauto.
  destruct (assoc "strip" attrs) as [[m|e]|]; simpl; eauto.
Qed.

Lemma chat_unfold (system_prompt : string) generate_content (message history : pyval)
    (turns : list turn) :
  normalize_history history = Ok turns ->
  chat system_prompt generate_content message history
  = try_except (chat_try generate_content (request_of system_prompt turns message))
               chat_except.
Proof.
  intros H. unfold chat. rewrite build_full_history_request, H. reflexivity.
Qed.

(** X1: once the history can be normalised, [chat] never raises and never
    returns an empty or blank reply, whatever the provider does: it returns
    a string with something other than whitespace in it. *)
Theorem chat_always_replies
    (system_prompt : string) (generate_content : string -> pyval -> result pyval)
    (message history : pyval) (turns : list turn) :
  normalize_history history = Ok turns ->
  exists s, chat system_prompt generate_content message history = Ok (PStr s)
            /\ strip s <> "".
Proof.
  intros H. rewrite (chat_unfold _ _ _ _ _ H). unfold chat_try.
  destruct (generate_content _ _) as [response|e]; cbn [bind try_except chat_except].
  2:{ eexists. split; [reflexivity|]. now apply strip_head_kept. }
  destruct (extract_returns response) as [answer ->]. cbn [bind].
  destruct (truthy answer) eqn:T; cbn [negb bind].
  2:{ eexists. split; [reflexivity|]. now apply strip_head_kept. }
  destruct (is_str answer) eqn:S.
  - destruct answer; try discriminate. cbn [py_strip bind].
    destruct (String.eqb_spec (strip s) ""); cbn [try_except].
    + eexists. split; [reflexivity|]. now apply strip_head_kept.
    + eexists. split; [reflexivity|assumption].
  - destruct (py_strip_not_str _ S) as [e ->]. cbn [bind try_except chat_except].
    eexists. split; [reflexivity|]. now apply strip_head_kept.
Qed.

Lemma chat_always_replies_witness :
  exists s, chat "S" (fun _ _ => Ok (flat_response (PInt 7))) (PStr "hello")
                 (PList [PDict [("role", PStr "user"); ("content", PStr "Hi")]])
            = Ok (PStr s)
            /\ strip s <> "".
Proof.
  exact (chat_always_replies "S" (fun _ _ => Ok (flat_response (PInt 7))) (PStr "hello")
           (PList [PDict [("role", PStr "user"); ("content", PStr "Hi")]])
           [("Hi", "")] eq_refl).
Defined.

(** X2: the history is normalised before the [try]: a history that cannot be
    iterated makes [chat] raise that [TypeError], and the provider's answer
    plays no part. *)
Theorem chat_history_fault
    (system_prompt : string) (generate_content : string -> pyval -> result pyval)
    (message history : pyval) :
  truthy history = true -> is_iterable history = false ->
  chat system_prompt generate_content message history
  = Raise (TypeError ("'" ++ type_name history ++ "' object is not iterable")).
Proof.
  intros T I. unfold chat, build_full_history, normalize_history, py_or.
  rewrite T. destruct history; try discriminate; reflexivity.
Qed.

Lemma chat_history_fault_witness :
  chat "S" (fun _ _ => Ok (flat_response (PStr "hi"))) (PStr "hello") (PInt 5)
  = Raise (TypeError "'int' object is not iterable").
Proof.
  apply (chat_history_fault "S" (fun _ _ => Ok (flat_response (PStr "hi")))
           (PStr "hello") (PInt 5)); reflexivity.
Defined.

Lemma chat_try_answer
    (generate_content : string -> pyval -> result pyval)
    (full_history : list pyval) (response : pyval) (answer : string) :
  generate_content "gemini-1.5-flash" (PList full_history) = Ok response ->
  extract_text_from_response response = Ok (PStr answer) ->
  strip answer <> "" ->
  chat_try generate_content full_history = Ok (PStr answer).
Proof.
  intros Hcall Hextract Hstrip. unfold chat_try.
  rewrite Hcall. cbn [bind]. rewrite Hextract. cbn [bind].
  assert (Hne : answer <> "") by (intros ->; now apply Hstrip).
  apply truthy_str in Hne. rewrite Hne. cbn [negb py_strip bind].
  destruct (String.eqb_spec (strip answer) ""); [contradiction|reflexivity].
Qed.

(** X3: when the provider answers and the extracted text has something
    other than whitespace in it, [chat] returns that text as it is, its
    leading and trailing whitespace kept. *)
Theorem chat_returns_answer
    (system_prompt : string) (generate_content : string -> pyval -> result pyval)
    (message history : pyval) (full_history : list pyval)
    (response : pyval) (answer : string) :
  build_full_history system_prompt message history = Ok full_history ->
  generate_content "gemini-1.5-flash" (PList full_history) = Ok response ->
  extract_text_from_response response = Ok (PStr answer) ->
  strip answer <> "" ->
  chat system_prompt generate_content message history = Ok (PStr answer).
Proof.
  intros Hbuild Hcall Hextract Hstrip.
  unfold chat. rewrite Hbuild. cbn [bind].
  now rewrite (chat_try_answer _ _ _ _ Hcall Hextract Hstrip).
Qed.

Lemma chat_returns_answer_witness :
  chat "S" (fun _ _ => Ok (flat_response (PStr " hi "))) (PStr "hello") PNone
  = Ok (PStr " hi ").
Proof.
  apply (chat_returns_answer "S" (fun _ _ => Ok (flat_response (PStr " hi ")))
           (PStr "hello") PNone (request_of "S" [] (PStr "hello"))
           (flat_response (PStr " hi ")) " hi "); try reflexivity.
  vm_compute. discriminate.
Defined.

(** X4: a fault after the provider has answered is reported like a fault of
    the provider.  When the extracted value is a non-empty builtin that is
    no [str], [strip] is missing on it and [chat] returns
    [An error occurred: ] with that [AttributeError]'s text. *)
Theorem chat_reports_late_fault
    (system_prompt : string) (generate_content : string -> pyval -> result pyval)
    (message history : pyval) (full_history : list pyval) (response answer : pyval) :
  build_full_history system_prompt message history = Ok full_history ->
  generate_content "gemini-1.5-flash" (PList full_history) = Ok response ->
  extract_text_from_response response = Ok answer ->
  truthy answer = true -> is_str answer = false -> is_builtin answer = true ->
  chat system_prompt generate_content message history
  = Ok (PStr ("An error occurred: '" ++ type_name answer
              ++ "' object has no attribute 'strip'")).
Proof.
  intros Hbuild Hcall Hextract T S B.
  unfold chat. rewrite Hbuild. cbn [bind]. unfold chat_try.
  rewrite Hcall. cbn [bind]. rewrite Hextract. cbn [bind]. rewrite T. cbn [negb].
  destruct answer; try discriminate; reflexivity.
Qed.

Lemma chat_reports_late_fault_witness :
  chat "S" (fun _ _ => Ok (flat_response (PInt 7))) (PStr "hello") PNone
  = Ok (PStr "An error occurred: 'int' object has no attribute 'strip'").
Proof.
  exact (chat_reports_late_fault "S" (fun _ _ => Ok (flat_response (PInt 7)))
           (PStr "hello") PNone (request_of "S" [] (PStr "hello"))
           (flat_response (PInt 7)) (PInt 7)
           eq_refl eq_refl eq_refl eq_refl eq_refl eq_refl).
Defined.

(** ** The request and the history *)

Lemma turn_messages_length (t : turn) :
  length (turn_messages t)
  = ((if (fst t =? "")%string then 0 else 1)
     + (if (snd t =? "")%string then 0 else 1))%nat.
Proof.
  unfold turn_messages. rewrite length_app.
  destruct (fst t =? ""), (snd t =? ""); reflexivity.
Qed.

Lemma flat_map_turn_messages_length (turns : list turn) :
  length (flat_map turn_messages turns)
  = (length (filter (fun t => negb (fst t =? "")%string) turns)
     + length (filter (fun t => negb (snd t =? "")%string) turns))%nat.
Proof.
  induction turns as [|t turns IH]; [reflexivity|].
  cbn [flat_map filter]. rewrite length_app, turn_messages_length, IH.
  destruct (fst t =? ""), (snd t =? ""); cbn [negb length]; lia.
Qed.

(** X5: the request has two messages more than the history has non-empty
    texts: between 2 and 2 plus twice the number of turns. *)
Theorem request_size
    (system_prompt : string) (message history : pyval)
    (turns : list turn) (full_history : list pyval) :
  normalize_history history = Ok turns ->
  build_full_history system_prompt message history = Ok full_history ->
  length full_history
  = (2 + length (filter (fun t => negb (fst t =? "")%string) turns)
       + length (filter (fun t => negb (snd t =? "")%string) turns))%nat
  /\ (2 <= length full_history <= 2 + 2 * length turns)%nat.
Proof.
  intros Hn. rewrite build_full_history_request, Hn. cbn [bind].
  intros H; injection H as <-. unfold request_of.
  cbn [length]. rewrite length_app, flat_map_turn_messages_length. cbn [length].
  pose proof (filter_length_le (fun t : turn => negb (fst t =? "")%string) turns).
  pose proof (filter_length_le (fun t : turn => negb (snd t =? "")%string) turns).
  unfold turn in *. lia.
Qed.

Lemma request_size_witness :
  length (request_of "S" [("Hi", ""); ("", ""); ("a", "b")] (PStr "hello")) = 5%nat
  /\ (2 <= length (request_of "S" [("Hi", ""); ("", ""); ("a", "b")] (PStr "hello"))
      <= 2 + 2 * 3)%nat.
Proof.
  exact (request_size "S" (PStr "hello")
           (PList [PStr "Hi"; PList []; PTuple [PStr "a"; PStr "b"; PStr "c"]])
           [("Hi", ""); ("", ""); ("a", "b")]
           (request_of "S" [("Hi", ""); ("", ""); ("a", "b")] (PStr "hello"))
           eq_refl eq_refl).
Defined.

(** X6: a history entry whose turn is empty (an empty list, an empty dict, a
    message of an unknown role, a null pair) leaves no trace in the request:
    the request is the one of the history without it. *)
Theorem empty_entry_dropped
    (system_prompt : string) (message item : pyval) (before after : list pyval) :
  normalize_item item = ("", "") ->
  build_full_history system_prompt message (PList (before ++ item :: after))
  = build_full_history system_prompt message (PList (before ++ after)).
Proof.
  intros H. rewrite !build_full_history_request, !normalize_history_list.
  cbn [bind]. unfold request_of.
  rewrite !map_app, !flat_map_app. cbn [map flat_map]. rewrite H. reflexivity.
Qed.

Lemma empty_entry_dropped_witness :
  build_full_history "S" (PStr "hello")
    (PList ([PStr "Hi"]
            ++ PDict [("role", PStr "system"); ("content", PStr "be brief")]
            :: [PStr "there"]))
  = build_full_history "S" (PStr "hello") (PList ([PStr "Hi"] ++ [PStr "there"])).
Proof.
  exact (empty_entry_dropped "S" (PStr "hello")
           (PDict [("role", PStr "system"); ("content", PStr "be brief")])
           [PStr "Hi"] [PStr "there"] eq_refl).
Defined.

Lemma turn_messages_nonempty (t : turn) :
  Forall (fun m => exists role s, m = message_dict role (PStr s) /\ s <> "")
         (turn_messages t).
Proof.
  unfold turn_messages. apply Forall_app. split.
  - destruct (String.eqb_spec (fst t) ""); constructor; [|constructor]. eauto.
  - destruct (String.eqb_spec (snd t) ""); constructor; [|constructor]. eauto.
Qed.

(** X7: between the system message and the new message, every message of
    the request carries a non-empty text: the history never puts an empty
    message on the wire (the new message may be empty). *)
Theorem history_messages_nonempty
    (system_prompt : string) (message history : pyval) (full_history : list pyval) :
  build_full_history system_prompt message history = Ok full_history ->
  exists middle,
    full_history = (message_dict "user" (PStr system_prompt) :: middle
                    ++ [message_dict "user" message])%list
    /\ Forall (fun m => exists role s, m = message_dict role (PStr s) /\ s <> "") middle.
Proof.
  rewrite build_full_history_request.
  destruct (normalize_history history) as [turns|e]; cbn [bind]; [|discriminate].
  intros H; injection H as <-. exists (flat_map turn_messages turns).
  split; [reflexivity|].
  apply Forall_flat_map. apply Forall_forall. intros t _. apply turn_messages_nonempty.
Qed.

Lemma history_messages_nonempty_witness :
  exists middle,
    request_of "S" [("Hi", "")] (PStr "") =
      (message_dict "user" (PStr "S") :: middle ++ [message_dict "user" (PStr "")])%list
    /\ Forall (fun m => exists role s, m = message_dict role (PStr s) /\ s <> "") middle.
Proof.
  exact (history_messages_nonempty "S" (PStr "") (PList [PList [PStr "Hi"; PNone]])
           (request_of "S" [("Hi", "")] (PStr "")) eq_refl).
Defined.

Lemma message_turn (item role content : pyval) :
  is_message item role content ->
  turn_messages (normalize_item item) = wire_message role content.
Proof.
  intros (d & -> & Hua & Hsm & Hrole & Hcontent).
  unfold normalize_item. rewrite Hua, Hsm.
  unfold dict_has, dict_get. rewrite Hrole, Hcontent. cbn [andb].
  unfold wire_message, turn_messages. rewrite !text_of_none_or_str.
  destruct (eq_str role "user"); cbn [fst snd].
  - destruct (text_of content =? ""); reflexivity.
  - destruct (eq_str role "assistant" || eq_str role "model"); cbn [fst snd];
      destruct (text_of content =? ""); reflexivity.
Qed.

(** X8: a history in the messages format (line 225: dicts with [role] and
    [content]) goes to the provider message by message, in order: [user]
    stays [user], [assistant] and [model] become [model], a message of
    another role or with an empty or null content is left out. *)
Theorem messages_history_request
    (system_prompt : string) (message : pyval)
    (items : list pyval) (messages : list (pyval * pyval)) :
  Forall2 (fun item rc => is_message item (fst rc) (snd rc)) items messages ->
  build_full_history system_prompt message (PList items)
  = Ok (message_dict "user" (PStr system_prompt)
        :: flat_map (fun rc => wire_message (fst rc) (snd rc)) messages
        ++ [message_dict "user" message])%list.
Proof.
  intros H. rewrite build_full_history_request, normalize_history_list.
  cbn [bind]. unfold request_of. do 3 f_equal.
  induction H as [|item rc items messages Hm _ IH]; [reflexivity|].
  cbn [map flat_map]. now rewrite IH, (message_turn _ _ _ Hm).
Qed.

Lemma messages_history_request_witness :
  build_full_history "S" (PStr "Bye")
    (PList [PDict [("role", PStr "user"); ("metadata", PNone); ("content", PStr "Hi")];
            PDict [("role", PStr "assistant"); ("content", PStr "Hello!")];
            PDict [("role", PStr "system"); ("content", PStr "note")]])
  = Ok [message_dict "user" (PStr "S"); message_dict "user" (PStr "Hi");
        message_dict "model" (PStr "Hello!"); message_dict "user" (PStr "Bye")].
Proof.
  apply (messages_history_request "S" (PStr "Bye") _
           [(PStr "user", PStr "Hi"); (PStr "assistant", PStr "Hello!");
            (PStr "system", PStr "note")]).
  repeat constructor; eexists; repeat split; reflexivity.
Defined.

(** ** [normalize_history] at its edges *)

Lemma normalize_item_str (s : string) : normalize_item (PStr s) = (s, "").
Proof. reflexivity. Qed.

(** X9: a history that is one [str] is taken apart into its characters,
    each a user text of its own; a history that is one dict gives its keys
    as user texts, its values unread. *)
Theorem normalize_history_not_a_list :
  (forall s : string,
      normalize_history (PStr s)
      = Ok (map (fun c => (char c, "")) (list_ascii_of_string s)))
  /\ (forall d : list (string * pyval),
         normalize_history (PDict d) = Ok (map (fun kv => (fst kv, "")) d)).
Proof.
  split.
  - intros s. unfold normalize_history, py_or.
    destruct s as [|c s]; [reflexivity|].
    cbn [truthy String.eqb negb py_iter bind].
    rewrite normalize_loop_map. unfold chars_of. now rewrite map_map.
  - intros d. unfold normalize_history, py_or.
    destruct d as [|kv d]; [reflexivity|].
    cbn [truthy length Nat.eqb negb py_iter bind].
    rewrite normalize_loop_map. now rewrite map_map.
Qed.


(** X11: under the [sender]/[message] and the [role]/[content] rules a turn
    has one side at most: its user text or its assistant text is empty. *)
Theorem keyed_turn_one_sided (d : list (string * pyval)) :
  dict_has d "user" && dict_has d "assistant" = false ->
  dict_has d "sender" && dict_has d "message" = true
  \/ dict_has d "role" && dict_has d "content" = true ->
  fst (normalize_item (PDict d)) = "" \/ snd (normalize_item (PDict d)) = "".
Proof.
  intros Hua Hkeys. unfold normalize_item. rewrite Hua.
  destruct (dict_has d "sender" && dict_has d "message").
  - destruct (eq_str (dict_get d "sender") "user"); auto.
  - destruct Hkeys as [Hsm|Hrc]; [discriminate|]. rewrite Hrc.
    destruct (eq_str (dict_get d "role") "user"); [auto|].
    destruct (eq_str (dict_get d "role") "assistant" || eq_str (dict_get d "role") "model");
      auto.
Qed.

Lemma keyed_turn_one_sided_witness :
  fst (normalize_item (PDict [("sender", PStr "bot"); ("message", PStr "Hello!")])) = ""
  \/ snd (normalize_item (PDict [("sender", PStr "bot"); ("message", PStr "Hello!")])) = "".
Proof.
  exact (keyed_turn_one_sided [("sender", PStr "bot"); ("message", PStr "Hello!")]
           eq_refl (or_introl eq_refl)).
Defined.

(** ** The extractor at its edges *)

Lemma assemble_app_from (assembled : string) (ps1 ps2 : list pyval) :
  assemble assembled (ps1 ++ ps2)
  = (a <- assemble assembled ps1 ;; assemble a ps2).
Proof.
  revert assembled. induction ps1 as [|p ps1 IH]; intros assembled; [reflexivity|].
  rewrite <- app_comm_cons, !assemble_step.
  destruct (t <- part_text p ;; if truthy t then str_iadd assembled t else Ok assembled)
    as [a|e]; cbn [bind]; [apply IH|reflexivity].
Qed.

(** X12: the loop over the parts composes: assembling a list of parts that
    is two lists end to end is assembling the first and going on from its
    result with the second, a fault in the first one ending it; and the
    loop only adds at the end, so what it returns starts with what it was
    given. *)
Theorem assemble_app (assembled : string) (ps1 ps2 : list pyval) :
  assemble assembled (ps1 ++ ps2)
  = (a <- assemble assembled ps1 ;; assemble a ps2)
  /\ (forall a, assemble assembled ps1 = Ok a -> prefix assembled a = true).
Proof.
  split; [apply assemble_app_from|].
  intros a H. apply assemble_sound in H as (texts & _ & ->).
  clear. induction assembled as [|c s IH]; cbn [append prefix].
  - now destruct (String.concat "" texts).
  - destruct (ascii_dec c c); [exact IH|contradiction].
Qed.

(** X13: only the first candidate is read: two responses whose candidate
    lists start with the same candidate extract to the same value, whatever
    their other candidates are. *)
Theorem first_candidate_only (r1 r2 cand : pyval) (rest1 rest2 : list pyval) :
  getattr r1 "candidates" PNone = Ok (PList (cand :: rest1)) ->
  getattr r2 "candidates" PNone = Ok (PList (cand :: rest2)) ->
  extract_text_from_response r1 = extract_text_from_response r2.
Proof.
  intros H1 H2. unfold extract_text_from_response. f_equal.
  unfold extract_body. rewrite H1, H2. cbn [bind truthy length Nat.eqb negb].
  rewrite (getattr_truthy _ _ _ H1 eq_refl), (getattr_truthy _ _ _ H2 eq_refl).
  reflexivity.
Qed.

Lemma first_candidate_only_witness :
  extract_text_from_response
    (instance "Response"
       [("candidates", inl (PList [instance "Candidate" [("text", inl (PStr "one"))];
                                   instance "Candidate" [("text", inl (PStr "two"))]]))])
  = extract_text_from_response
      (instance "Reply"
         [("candidates", inl (PList [instance "Candidate" [("text", inl (PStr "one"))]]))]).
Proof.
  exact (first_candidate_only
           (instance "Response"
              [("candidates",
                inl (PList [instance "Candidate" [("text", inl (PStr "one"))];
                            instance "Candidate" [("text", inl (PStr "two"))]]))])
           (instance "Reply"
              [("candidates",
                inl (PList [instance "Candidate" [("text", inl (PStr "one"))]]))])
           (instance "Candidate" [("text", inl (PStr "one"))])
           [instance "Candidate" [("text", inl (PStr "two"))]] [] eq_refl eq_refl).
Defined.

(** X14: a response that is no instance of a class (a dict, a list, a
    [str], [None]) is never looked into: it has no attribute [candidates],
    and the extractor returns its [str()], a dict with a [candidates] key
    included. *)
Theorem builtin_response_stringified (response_obj : pyval) :
  is_builtin response_obj = true ->
  extract_text_from_response response_obj = Ok (PStr (py_str response_obj)).
Proof.
  destruct response_obj; try discriminate; reflexivity.
Qed.

Lemma builtin_response_stringified_witness :
  extract_text_from_response
    (PDict [("candidates", PList [PDict [("text", PStr "hi")]])])
  = Ok (PStr "{'candidates': [{'text': 'hi'}]}").
Proof.
  exact (builtin_response_stringified
           (PDict [("candidates", PList [PDict [("text", PStr "hi")]])]) eq_refl).
Defined.

(** X15: one part whose text is there but is no [str] spoils the whole
    extraction: whatever the parts before it gave and whatever follows, the
    loop raises the [TypeError] of [+=], and the extractor's answer is the
    diagnostic. *)
Theorem bad_part_spoils (ps1 ps2 : list pyval) (p t : pyval) (assembled : string) :
  assemble "" ps1 = Ok assembled ->
  part_text p = Ok t -> truthy t = true -> is_str t = false ->
  assemble "" (ps1 ++ p :: ps2)
  = Raise (TypeError ("can only concatenate str (not " ++ char dquote ++ type_name t
                      ++ char dquote ++ ") to str")).
Proof.
  intros H1 Hp T S. rewrite assemble_app_from, H1. cbn [bind].
  rewrite assemble_step, Hp. cbn [bind]. rewrite T.
  destruct t; try discriminate; reflexivity.
Qed.

Lemma bad_part_spoils_witness :
  assemble "" ([PDict [("text", PStr "a")]] ++ PDict [("text", PInt 3)]
               :: [PDict [("text", PStr "b")]])
  = Raise (TypeError ("can only concatenate str (not " ++ char dquote ++ "int"
                      ++ char dquote ++ ") to str")).
Proof.
  exact (bad_part_spoils [PDict [("text", PStr "a")]] [PDict [("text", PStr "b")]]
           (PDict [("text", PInt 3)]) (PInt 3) "a" eq_refl eq_refl eq_refl eq_refl).
Defined.

(** ** [push] and the recorders *)

Lemma truthy_py_and (a b : pyval) : truthy (py_and a b) = truthy a && truthy b.
Proof. unfold py_and. destruct (truthy a) eqn:T; [reflexivity|exact T]. Qed.

(** Everything [push] adds to the trace. *)
Lemma push_trace (pushover_user pushover_token : pyval)
    (requests_post : string -> pyval -> Z -> result pyval)
    (message : pyval) (w : list event) :
  let payload :=
    PDict [("user", pushover_user); ("token", pushover_token); ("message", message)] in
  push pushover_user pushover_token requests_post message w
  = (Ok PNone,
     (w ++ Printed ("Push: " ++ py_str message)
        :: (if truthy pushover_user && truthy pushover_token
            then Posted pushover_url payload 5%Z
                 :: match requests_post pushover_url payload 5%Z with
                    | Ok _ => []
                    | Raise e => [Printed ("Pushover request failed: " ++ exn_descr e)]
                    end
            else [Printed skip_notice]))%list).
Proof.
  intros payload. unfold push, io_bind, print at 1. rewrite truthy_py_and.
  destruct (truthy pushover_user && truthy pushover_token); cbn [negb].
  - fold payload. unfold io_try, io_bind, post, io_ret, print.
    destruct (requests_post pushover_url payload 5%Z) as [r|e];
      rewrite <- ?app_assoc; reflexivity.
  - unfold print, io_ret. rewrite <- app_assoc. reflexivity.
Qed.

(** X16: [push] never raises and returns [None], whatever the credentials
    are and whatever the network does; it keeps the trace so far, prints
    [Push: ] and the message first, and calls the network once at most. *)
Theorem push_never_raises (pushover_user pushover_token : pyval)
    (requests_post : string -> pyval -> Z -> result pyval)
    (message : pyval) (w : list event) :
  exists events,
    push pushover_user pushover_token requests_post message w
    = (Ok PNone, (w ++ Printed ("Push: " ++ py_str message) :: events)%list)
    /\ (length (posts_of events) <= 1)%nat.
Proof.
  eexists. split; [apply push_trace|].
  destruct (truthy pushover_user && truthy pushover_token); [|cbn; lia].
  destruct (requests_post _ _ _); cbn; lia.
Qed.

(** X17: [push] calls the network iff both credentials are set and not
    empty; the one call goes to the Pushover address with the user, the
    token and the message as data and a timeout of 5 seconds. *)
Theorem push_posts_iff_credentials (pushover_user pushover_token : pyval)
    (requests_post : string -> pyval -> Z -> result pyval)
    (message : pyval) (w : list event) :
  exists events,
    snd (push pushover_user pushover_token requests_post message w) = (w ++ events)%list
    /\ posts_of events
       = if truthy pushover_user && truthy pushover_token
         then [Posted "https://api.pushover.net/1/messages.json"
                 (PDict [("user", pushover_user); ("token", pushover_token);
                         ("message", message)]) 5%Z]
         else [].
Proof.
  rewrite push_trace. eexists. split; [reflexivity|].
  destruct (truthy pushover_user && truthy pushover_token); [|reflexivity].
  destruct (requests_post _ _ _); reflexivity.
Qed.

(** X18: a failed delivery is printed and goes no further: with both
    credentials set, when the network call raises [e], [push] still returns
    [None], and the trace ends with [Pushover request failed: ] and the
    description of [e]. *)
Theorem push_failure_printed (pushover_user pushover_token : pyval)
    (requests_post : string -> pyval -> Z -> result pyval)
    (message : pyval) (w : list event) (e : exn) :
  truthy pushover_user = true -> truthy pushover_token = true ->
  requests_post pushover_url
    (PDict [("user", pushover_user); ("token", pushover_token); ("message", message)]) 5%Z
  = Raise e ->
  push pushover_user pushover_token requests_post message w
  = (Ok PNone,
     (w ++ [Printed ("Push: " ++ py_str message);
            Posted pushover_url
              (PDict [("user", pushover_user); ("token", pushover_token);
                      ("message", message)]) 5%Z;
            Printed ("Pushover request failed: " ++ exn_descr e)])%list).
Proof.
  intros Tu Tt Hpost. rewrite push_trace, Tu, Tt, Hpost. reflexivity.
Qed.

Lemma push_failure_printed_witness :
  push (PStr "u1") (PStr "t1") (fun _ _ _ => Raise (Exn "Timeout" "timed out"))
       (PStr "hi") []
  = (Ok PNone,
     [Printed "Push: hi";
      Posted pushover_url
        (PDict [("user", PStr "u1"); ("token", PStr "t1"); ("message", PStr "hi")]) 5%Z;
      Printed "Pushover request failed: timed out"]).
Proof.
  exact (push_failure_printed (PStr "u1") (PStr "t1")
           (fun _ _ _ => Raise (Exn "Timeout" "timed out")) (PStr "hi") []
           (Exn "Timeout" "timed out") eq_refl eq_refl eq_refl).
Defined.

(** X19: both recorders answer [recorded: ok] whether or not anything was
    delivered (no credentials, a failed call): the answer does not depend on
    the credentials or on the network, and the trace they leave is the one
    of [push] on their message, the defaults filling the name and the notes
    left out. *)
Theorem recorders_always_ok (pushover_user pushover_token : pyval)
    (requests_post : string -> pyval -> Z -> result pyval)
    (email question : pyval) (w : list event) :
  record_user_details pushover_user pushover_token requests_post email None None w
  = (Ok (PDict [("recorded", PStr "ok")]),
     snd (push pushover_user pushover_token requests_post
            (PStr ("Recording interest from Name not provided with email "
                   ++ py_str email ++ " and notes not provided")) w))
  /\ (forall name notes : pyval,
         record_user_details pushover_user pushover_token requests_post
           email (Some name) (Some notes) w
         = (Ok (PDict [("recorded", PStr "ok")]),
            snd (push pushover_user pushover_token requests_post
                   (PStr ("Recording interest from " ++ py_str name ++ " with email "
                          ++ py_str email ++ " and notes " ++ py_str notes)) w)))
  /\ record_unknown_question pushover_user pushover_token requests_post question w
     = (Ok (PDict [("recorded", PStr "ok")]),
        snd (push pushover_user pushover_token requests_post
               (PStr ("Recording unknown question: " ++ py_str question)) w)).
Proof.
  unfold record_user_details, record_unknown_question, io_bind, io_ret.
  repeat split; intros; rewrite !push_trace; reflexivity.
Qed.

(** ** From the provider's parts to the reply *)

Lemma text_part_contributes (s : string) : part_contributes (text_part s) s.
Proof.
  destruct (String.eqb_spec s "") as [->|Hne].
  - eapply contributes_nothing; reflexivity.
  - apply contributes_text; [reflexivity|assumption].
Qed.

Lemma text_parts_contribute (texts : list string) :
  Forall2 part_contributes (map text_part texts) texts.
Proof.
  induction texts as [|s texts IH]; constructor; [apply text_part_contributes|exact IH].
Qed.

Lemma extract_text_parts (texts : list string) :
  String.concat "" texts <> "" ->
  extract_text_from_response (parts_response (PList (map text_part texts)))
  = Ok (PStr (String.concat "" texts)).
Proof.
  intros Hne. unfold extract_text_from_response.
  rewrite (extract_body_complete _ (PStr (String.concat "" texts))); [reflexivity|].
  destruct texts as [|s texts]; [now destruct Hne|].
  eapply extracted_parts with
    (cand := instance "Candidate"
               [("content", inl (instance "Content"
                                   [("parts", inl (PList (map text_part (s :: texts))))]))])
    (text := PNone).
  - eapply (view_of _ (PList [_]) _ (instance "Content" _)); reflexivity.
  - reflexivity.
  - reflexivity.
  - eapply parts_text_of; try reflexivity. apply text_parts_contribute.
  - exact Hne.
Qed.

(** X20: end to end, when the provider answers with a candidate whose
    content is a list of text parts, [chat] replies with their texts joined
    in order, empty parts adding nothing, as long as the joined text is not
    blank. *)
Theorem chat_joins_parts
    (system_prompt : string) (generate_content : string -> pyval -> result pyval)
    (message history : pyval) (full_history : list pyval) (texts : list string) :
  build_full_history system_prompt message history = Ok full_history ->
  generate_content "gemini-1.5-flash" (PList full_history)
  = Ok (parts_response (PList (map text_part texts))) ->
  strip (String.concat "" texts) <> "" ->
  chat system_prompt generate_content message history
  = Ok (PStr (String.concat "" texts)).
Proof.
  intros Hbuild Hcall Hstrip.
  assert (Hne : String.concat "" texts <> "").
  { intros H. rewrite H in Hstrip. now apply Hstrip. }
  unfold chat. rewrite Hbuild. cbn [bind].
  now rewrite (chat_try_answer _ _ _ _ Hcall (extract_text_parts _ Hne) Hstrip).
Qed.

Lemma chat_joins_parts_witness :
  chat "S" (fun _ _ => Ok (parts_response (PList (map text_part ["Hel"; ""; "lo"]))))
       (PStr "Hi") PNone
  = Ok (PStr "Hello").
Proof.
  apply (chat_joins_parts "S"
           (fun _ _ => Ok (parts_response (PList (map text_part ["Hel"; ""; "lo"]))))
           (PStr "Hi") PNone (request_of "S" [] (PStr "Hi")) ["Hel"; ""; "lo"]);
    try reflexivity.
  vm_compute. discriminate.
Defined.
